(** * onE (aggressive mode): the trading decision loop of [onE(agg).py]

    A shallow embedding of the position manager, the cooldown gate, the
    labelling step, the prediction step and the decision cycle [main],
    together with the properties of the specification that they decide.

    Numbers.  Python floats are embedded as exact rationals ([Q]): the
    comparisons and the products of the source are read over the numbers
    the floats stand for, and binary64 rounding, NaN arising from float
    arithmetic and infinities of prices are outside the embedding.  Only
    the data-frame cells, where pandas uses NaN as the missing value,
    carry an explicit NaN.

    Effects.  The module-level globals ([position], [last_trade_time], the
    persisted model file) form the state; every function of the source
    that touches them, logs or can raise lives in a state, exception and
    trace monad.  A raised exception keeps the state reached so far, as
    in Python. *)

From Stdlib Require Import QArith ZArith List String Bool Lia Lqa Qround.
Import ListNotations.
Open Scope Q_scope.

(** ** Numbers *)

(** [a < b] on floats, as a boolean. *)
Definition Qlt_bool (a b : Q) : bool := negb (Qle_bool b a).

(** Round half to even, to an integer. *)
Definition round_half_even (q : Q) : Z :=
  let f := Qfloor q in
  match Qcompare (q - inject_Z f) (1 # 2) with
  | Lt => f
  | Gt => (f + 1)%Z
  | Eq => if Z.even f then f else (f + 1)%Z
  end.

(** Python's [round(x, ndigits)] for a non-negative [ndigits]. *)
Definition round (x : Q) (ndigits : nat) : Q :=
  let scale := inject_Z (10 ^ Z.of_nat ndigits) in
  inject_Z (round_half_even (x * scale)) / scale.

(** ** Exceptions, events and the monad *)

(** The exceptions that the modelled code can meet.  [ExternalError] stands
    for any [Exception] subclass raised by the exchange client or the
    network; [KeyboardInterrupt] is the [BaseException] that
    [except Exception] does not catch. *)
Inductive exn : Type :=
| TypeError
| ZeroDivisionError
| IndexError
| ExternalError (msg : string)
| KeyboardInterrupt.

Definition is_Exception (e : exn) : bool :=
  match e with
  | KeyboardInterrupt => false
  | _ => true
  end.

Inductive result (A : Type) : Type :=
| Ret (a : A)
| Raise (e : exn).
Arguments Ret {A} a.
Arguments Raise {A} e.

(** The order requests of [main]: both are for symbol BTCUSDT and of type
    MARKET; the BUY carries [quoteOrderQty], the SELL carries [quantity]
    (the field of the position manager, which may be [None]). *)
Inductive OrderRequest : Type :=
| MarketBuy (quoteOrderQty : Q)
| MarketSell (quantity : option Q).

(** One constructor per [log(...)] call of the source, with the values
    that the message formats. *)
Inductive LogMsg : Type :=
| EnteredPosition (price tp sl : Q)
| TakeProfitHit (current_price : option Q)
| StopLossHit (current_price : option Q)
| ClosingPosition
| Running
| CooldownActive
| BalanceOBI (usdt_balance obi : Q)
| ModelPrediction (prediction : Z) (confidence : Q)
| LowConfidence
| BuyOrder (order : string)
| FailedToBuy (e : exn)
| NoBuySignal
| SellOrder (order : string)
| FailedToSell (e : exn)
| InPositionHolding
| Waiting1Minute.

(** What a run leaves outside the process: log lines and order requests. *)
Inductive Event : Type :=
| Logged (m : LogMsg)
| Ordered (o : OrderRequest).

Definition M (S A : Type) : Type := S -> result A * S * list Event.

Definition ret {S A} (a : A) : M S A := fun s => (Ret a, s, []).

Definition bind {S A B} (m : M S A) (k : A -> M S B) : M S B :=
  fun s =>
    match m s with
    | (Ret a, s1, t1) =>
        match k a s1 with
        | (r, s2, t2) => (r, s2, t1 ++ t2)
        end
    | (Raise e, s1, t1) => (Raise e, s1, t1)
    end.

Definition raise {S A} (e : exn) : M S A := fun s => (Raise e, s, []).

Definition get {S} : M S S := fun s => (Ret s, s, []).

Definition put {S} (s : S) : M S unit := fun _ => (Ret tt, s, []).

Definition lift {S A} (r : result A) : M S A := fun s => (r, s, []).

Definition emit {S} (e : Event) : M S unit := fun s => (Ret tt, s, [e]).

(** [log(message)]: the time stamp of the line is not modelled. *)
Definition log {S} (message : LogMsg) : M S unit := emit (Logged message).

(** [try: body except Exception as e: handler(e)]. *)
Definition try_except {S A} (body : M S A) (handler : exn -> M S A) : M S A :=
  fun s =>
    match body s with
    | (Raise e, s1, t1) =>
        if is_Exception e then
          match handler e s1 with
          | (r, s2, t2) => (r, s2, t1 ++ t2)
          end
        else (Raise e, s1, t1)
    | ok => ok
    end.

(** Run a computation on a component of the state. *)
Definition zoom {S T A} (proj : S -> T) (upd : T -> S -> S) (m : M T A) : M S A :=
  fun s =>
    match m (proj s) with
    | (r, t', tr) => (r, upd t' s, tr)
    end.

Declare Scope M_scope.
Delimit Scope M_scope with M.
Notation "x <- c ;; k" := (bind c (fun x => k))
  (at level 61, c at next level, right associativity) : M_scope.
Notation "' pat <- c ;; k" := (bind c (fun x => match x with pat => k end))
  (at level 61, pat pattern, c at next level, right associativity) : M_scope.
Notation "c ;; k" := (bind c (fun _ => k))
  (at level 61, right associativity) : M_scope.
Open Scope M_scope.

Definition outcome {S A} (x : result A * S * list Event) : result A := fst (fst x).
Definition final {S A} (x : result A * S * list Event) : S := snd (fst x).
Definition trace {S A} (x : result A * S * list Event) : list Event := snd x.

(** Comparisons of values that may be [None]: Python raises [TypeError]
    when either side is [None]. *)
Definition py_ge (a b : option Q) : result bool :=
  match a, b with
  | Some x, Some y => Ret (Qle_bool y x)
  | _, _ => Raise TypeError
  end.

Definition py_le (a b : option Q) : result bool :=
  match a, b with
  | Some x, Some y => Ret (Qle_bool x y)
  | _, _ => Raise TypeError
  end.

(** Float division: [ZeroDivisionError] on a zero divisor. *)
Definition py_div (a b : Q) : result Q :=
  if Qeq_bool b 0 then Raise ZeroDivisionError else Ret (a / b).

(** ** Position manager *)

Record PositionManager : Type := mkPositionManager {
  in_position : bool;
  entry_price : option Q;
  take_profit : option Q;
  stop_loss : option Q;
  quantity : option Q
}.

Module PositionManager.

(** [__init__] *)
Definition init : PositionManager :=
  {| in_position := false; entry_price := None; take_profit := None;
     stop_loss := None; quantity := None |}.

Definition tp_multiplier_default : Q := 1.007.
Definition sl_multiplier_default : Q := 0.985.

Definition open_position (price quantity tp_multiplier sl_multiplier : Q)
  : M PositionManager unit :=
  put {| in_position := true;
         entry_price := Some price;
         quantity := Some quantity;
         take_profit := Some (price * tp_multiplier);
         stop_loss := Some (price * sl_multiplier) |} ;;
  log (EnteredPosition price (price * tp_multiplier) (price * sl_multiplier)).

Definition should_close_position (current_price : option Q)
  : M PositionManager bool :=
  self <- get ;;
  tp_hit <- lift (py_ge current_price (take_profit self)) ;;
  if tp_hit : bool then
    log (TakeProfitHit current_price) ;;
    ret true
  else
    sl_hit <- lift (py_le current_price (stop_loss self)) ;;
    if sl_hit : bool then
      log (StopLossHit current_price) ;;
      ret true
    else ret false.

Definition close_position : M PositionManager unit :=
  log ClosingPosition ;;
  put {| in_position := false; entry_price := None; take_profit := None;
         stop_loss := None; quantity := None |}.

End PositionManager.

Definition is_set (o : option Q) : bool :=
  match o with Some _ => true | None => false end.

(** The field-consistency invariant of the position manager. *)
Definition field_consistent (pm : PositionManager) : bool :=
  if in_position pm then
    is_set (entry_price pm) && is_set (take_profit pm) &&
    is_set (stop_loss pm) && is_set (quantity pm)
  else
    negb (is_set (entry_price pm)) && negb (is_set (take_profit pm)) &&
    negb (is_set (stop_loss pm)) && negb (is_set (quantity pm)).

(** State [Long]: a position is open with the given values. *)
Definition Long (entry tp sl qty : Q) : PositionManager :=
  {| in_position := true; entry_price := Some entry; take_profit := Some tp;
     stop_loss := Some sl; quantity := Some qty |}.

(** State [Flat] is the initial state. *)
Definition Flat : PositionManager := PositionManager.init.

(** ** Data frames *)

(** A float cell of a data frame: pandas marks a missing value by NaN, and
    a division of a non-zero number by zero gives an infinity. *)
Inductive fval : Type :=
| NaN
| Inf (negative : bool)
| Fin (q : Q).

Definition notna (x : fval) : bool :=
  match x with NaN => false | _ => true end.

(** [x > c] and [x < c] for a cell [x] and a number [c]; false on NaN. *)
Definition fval_gt (x : fval) (c : Q) : bool :=
  match x with
  | NaN => false
  | Inf negative => negb negative
  | Fin q => Qlt_bool c q
  end.

Definition fval_lt (x : fval) (c : Q) : bool :=
  match x with
  | NaN => false
  | Inf negative => negative
  | Fin q => Qlt_bool q c
  end.

(** One bar of the OHLCV series returned by [get_historical_data]; the
    index of the frame is [timestamp]. *)
Record Bar : Type := mkBar {
  timestamp : Z;
  open : Q;
  high : Q;
  low : Q;
  close : Q;
  volume : Q
}.

(** The columns that [calculate_indicators] obtains from the [ta] package
    and from pandas' rolling and cumulative operations; they are NaN
    where a window lacks history. *)
Record Indicators : Type := mkIndicators {
  SMA_20 : fval;
  SMA_50 : fval;
  RSI : fval;
  MACD : fval;
  BB_upper : fval;
  BB_lower : fval;
  ATR : fval;
  Stoch_K : fval;
  Stoch_D : fval;
  VWAP : fval;
  volume_zscore : fval
}.

(** A row of the frame after [calculate_indicators]. *)
Record FeatureRow : Type := mkFeatureRow {
  bar : Bar;
  ind : Indicators;
  OBI : Q
}.

(** A row of the frame after [add_target]. *)
Record LabelledRow : Type := mkLabelledRow {
  row : FeatureRow;
  future_return : fval;
  target : Z
}.

(** The row restricted to the columns listed in [features], in that order. *)
Definition features (r : FeatureRow) : list fval :=
  [ SMA_20 (ind r); SMA_50 (ind r); RSI (ind r); MACD (ind r);
    BB_upper (ind r); BB_lower (ind r); ATR (ind r); Stoch_K (ind r);
    Stoch_D (ind r); VWAP (ind r); Fin (OBI r); volume_zscore (ind r) ].

(** [dropna] keeps the rows without a NaN cell; the OHLCV columns and
    [OBI] are numbers, so only the indicator cells can be NaN. *)
Definition row_notna (r : FeatureRow) : bool := forallb notna (features r).

Definition calculate_indicators (ta : list Bar -> list Indicators)
  (df : list Bar) (bid_volume ask_volume : Q) : result (list FeatureRow) :=
  match py_div (bid_volume - ask_volume) (bid_volume + ask_volume) with
  | Raise e => Raise e
  | Ret obi =>
      Ret (filter row_notna
             (map (fun bi => {| bar := fst bi; ind := snd bi; OBI := obi |})
                  (combine df (ta df))))
  end.

(** [col.shift(-horizon)]: every value moves [horizon] rows up and the
    last [horizon] rows become NaN ([None]). *)
Definition shift_up (horizon : nat) (col : list Q) : list (option Q) :=
  skipn horizon (map Some col) ++ repeat None (Nat.min horizon (List.length col)).

(** One cell of [df['close'].shift(-horizon) / df['close'] - 1]. *)
Definition future_return_cell (shifted : option Q) (c : Q) : fval :=
  match shifted with
  | None => NaN
  | Some a =>
      if Qeq_bool c 0 then
        if Qeq_bool a 0 then NaN else Inf (Qlt_bool a 0)
      else Fin (a / c - 1)
  end.

(** The [target] column: 0, then 1 where the return exceeds 0.2%, then -1
    where it is below -0.2%. *)
Definition label (fr : fval) : Z :=
  let t := 0%Z in
  let t := if fval_gt fr 0.002 then 1%Z else t in
  let t := if fval_lt fr (-0.002) then (-1)%Z else t in
  t.

Definition add_target (df : list FeatureRow) (horizon : nat) : list LabelledRow :=
  let closes := map (fun r => close (bar r)) df in
  let rows :=
    map (fun rs =>
           let fr := future_return_cell (snd rs) (close (bar (fst rs))) in
           {| row := fst rs; future_return := fr; target := label fr |})
        (combine df (shift_up horizon closes)) in
  filter (fun lr => row_notna (row lr) && notna (future_return lr)) rows.

(** ** The oracle *)

(** A fitted classifier: [predict] gives the class of a feature vector and
    [predict_proba] its class probabilities, one per class (at least
    one). *)
Record Model : Type := mkModel {
  model_predict : list fval -> Z;
  model_predict_proba : list fval -> Q * list Q
}.

Definition Qmaxb (a b : Q) : Q := if Qle_bool a b then b else a.

(** [max(proba)] *)
Definition max_proba (proba : Q * list Q) : Q :=
  fold_left Qmaxb (snd proba) (fst proba).

(** [df.iloc[-1]] *)
Definition iloc_last {A} (df : list A) : result A :=
  match rev df with
  | [] => Raise IndexError
  | r :: _ => Ret r
  end.

Definition predict (df : list LabelledRow) (model : Model) : result (Z * Q) :=
  match iloc_last df with
  | Raise e => Raise e
  | Ret r =>
      let latest := features (row r) in
      let proba := model_predict_proba model latest in
      let pred := model_predict model latest in
      Ret (pred, max_proba proba)
  end.

(** ** Globals and collaborators *)

(** A naive [datetime], in microseconds. *)
Definition datetime : Type := Z.
Bind Scope Z_scope with datetime.

(** [(a - b).seconds]: the seconds field of the normalised [timedelta],
    between 0 and 86399; whole days and microseconds are separate
    fields. *)
Definition timedelta_seconds (a b : datetime) : Z :=
  (((a - b) mod 86400000000) / 1000000)%Z.

(** The module-level state: [position], [last_trade_time] and the model
    file [model_aggressive.pkl]. *)
Record World : Type := mkWorld {
  position : PositionManager;
  last_trade_time : option datetime;
  model_file : option Model
}.

Definition set_position (pm : PositionManager) (w : World) : World :=
  {| position := pm; last_trade_time := last_trade_time w;
     model_file := model_file w |}.

Definition set_last_trade_time (t : option datetime) (w : World) : World :=
  {| position := position w; last_trade_time := t;
     model_file := model_file w |}.

Definition set_model_file (m : option Model) (w : World) : World :=
  {| position := position w; last_trade_time := last_trade_time w;
     model_file := m |}.

(** The start of the process: [position = PositionManager()],
    [last_trade_time = None]; the model file may exist or not. *)
Definition initial_world (file : option Model) : World :=
  {| position := PositionManager.init; last_trade_time := None;
     model_file := file |}.

(** What the outside gives to one run of [main]: the two readings of
    [datetime.now()] that [can_trade] makes (the one compared and the one
    stored), the answers of the exchange client, the indicator library and
    the fitting procedure of the classifier. *)
Record Env : Type := mkEnv {
  now_check : datetime;
  now_stamp : datetime;
  get_price : result (option Q);
  get_usdt_balance : result Q;
  get_order_book_stats : result (Q * Q);
  get_historical_data : result (list Bar);
  ta_indicators : list Bar -> list Indicators;
  RandomForest_fit : list (list fval * Z) -> result Model;
  create_order : OrderRequest -> result string
}.

Definition CONFIDENCE_THRESHOLD : Q := 0.6.

Definition train_or_load_model (fit : list (list fval * Z) -> result Model)
  (df : list LabelledRow) : M World Model :=
  w <- get ;;
  match model_file w with
  | Some model => ret model
  | None =>
      model <- lift (fit (map (fun r => (features (row r), target r)) df)) ;;
      put (set_model_file (Some model) w) ;;
      ret model
  end.

Definition can_trade (now_check now_stamp : datetime) : M World bool :=
  w <- get ;;
  if match last_trade_time w with
     | None => true
     | Some last => (60 <? timedelta_seconds now_check last)%Z
     end
  then
    put (set_last_trade_time (Some now_stamp) w) ;;
    ret true
  else ret false.

(** The calls on the global [position]. *)
Definition on_position {A} (m : M PositionManager A) : M World A :=
  zoom position set_position m.

(** The request reaches the exchange, which answers or raises. *)
Definition submit_order (env : Env) (o : OrderRequest) : M World string :=
  emit (Ordered o) ;;
  lift (create_order env o).

Definition main (env : Env) : M World unit :=
  log Running ;;
  ok <- can_trade (now_check env) (now_stamp env) ;;
  if negb ok then log CooldownActive
  else
    live_price <- lift (get_price env) ;;
    usdt_balance <- lift (get_usdt_balance env) ;;
    ' (bid_volume, ask_volume) <- lift (get_order_book_stats env) ;;
    obi <- lift (py_div (bid_volume - ask_volume) (bid_volume + ask_volume)) ;;
    log (BalanceOBI usdt_balance obi) ;;
    df <- lift (get_historical_data env) ;;
    df <- lift (calculate_indicators (ta_indicators env) df bid_volume ask_volume) ;;
    let df := add_target df 3 in
    model <- train_or_load_model (RandomForest_fit env) df ;;
    ' (prediction, confidence) <- lift (predict df model) ;;
    log (ModelPrediction prediction confidence) ;;
    if Qlt_bool confidence CONFIDENCE_THRESHOLD then log LowConfidence
    else
      pos <- get ;;
      if negb (in_position (position pos)) then
        if (prediction =? 1)%Z then
          let trade_usdt := round (usdt_balance * 0.20) 2 in
          price <- match live_price with
                   | Some p => ret p
                   | None => raise TypeError
                   end ;;
          ratio <- lift (py_div trade_usdt price) ;;
          let btc_amount := round ratio 6 in
          try_except
            (order <- submit_order env (MarketBuy trade_usdt) ;;
             on_position
               (PositionManager.open_position price btc_amount
                  PositionManager.tp_multiplier_default
                  PositionManager.sl_multiplier_default) ;;
             log (BuyOrder order))
            (fun e => log (FailedToBuy e))
        else log NoBuySignal
      else
        close_now <-
          (if (prediction =? -1)%Z
           then on_position (PositionManager.should_close_position live_price)
           else ret false) ;;
        if close_now : bool then
          try_except
            (order <- submit_order env (MarketSell (quantity (position pos))) ;;
             on_position PositionManager.close_position ;;
             log (SellOrder order))
            (fun e => log (FailedToSell e))
        else log InPositionHolding.

(** [run_forever], unrolled over the environments of its first iterations:
    [Ret tt] means that all of them completed and the loop goes on to the
    next one; [Raise e] means that [e] left the loop, which ends the
    process.  [time.sleep(60)] only lets time pass; time enters through
    the clock readings of the next environment. *)
Fixpoint run_forever (envs : list Env) : M World unit :=
  match envs with
  | [] => ret tt
  | env :: rest =>
      main env ;;
      log Waiting1Minute ;;
      run_forever rest
  end.

(** ** The two halves of a cycle

    [main] is the sequence of a fetching half (lines 157-168: market data,
    features, labels, model, prediction) and a deciding half (lines
    170-204).  They are named here so that a statement can speak of the
    signal a cycle decides on; [main_split] below shows that [main] is
    their composition. *)

Record Snapshot : Type := mkSnapshot {
  snap_live_price : option Q;
  snap_usdt_balance : Q;
  snap_prediction : Z;
  snap_confidence : Q
}.

Definition observe (env : Env) : M World Snapshot :=
  live_price <- lift (get_price env) ;;
  usdt_balance <- lift (get_usdt_balance env) ;;
  ' (bid_volume, ask_volume) <- lift (get_order_book_stats env) ;;
  obi <- lift (py_div (bid_volume - ask_volume) (bid_volume + ask_volume)) ;;
  log (BalanceOBI usdt_balance obi) ;;
  df <- lift (get_historical_data env) ;;
  df <- lift (calculate_indicators (ta_indicators env) df bid_volume ask_volume) ;;
  let df := add_target df 3 in
  model <- train_or_load_model (RandomForest_fit env) df ;;
  ' (prediction, confidence) <- lift (predict df model) ;;
  log (ModelPrediction prediction confidence) ;;
  ret {| snap_live_price := live_price; snap_usdt_balance := usdt_balance;
         snap_prediction := prediction; snap_confidence := confidence |}.

Definition decide (env : Env) (s : Snapshot) : M World unit :=
  let live_price := snap_live_price s in
  let usdt_balance := snap_usdt_balance s in
  let prediction := snap_prediction s in
  let confidence := snap_confidence s in
  if Qlt_bool confidence CONFIDENCE_THRESHOLD then log LowConfidence
  else
    pos <- get ;;
    if negb (in_position (position pos)) then
      if (prediction =? 1)%Z then
        let trade_usdt := round (usdt_balance * 0.20) 2 in
        price <- match live_price with
                 | Some p => ret p
                 | None => raise TypeError
                 end ;;
        ratio <- lift (py_div trade_usdt price) ;;
        let btc_amount := round ratio 6 in
        try_except
          (order <- submit_order env (MarketBuy trade_usdt) ;;
           on_position
             (PositionManager.open_position price btc_amount
                PositionManager.tp_multiplier_default
                PositionManager.sl_multiplier_default) ;;
           log (BuyOrder order))
          (fun e => log (FailedToBuy e))
      else log NoBuySignal
    else
      close_now <-
        (if (prediction =? -1)%Z
         then on_position (PositionManager.should_close_position live_price)
         else ret false) ;;
      if close_now : bool then
        try_except
          (order <- submit_order env (MarketSell (quantity (position pos))) ;;
           on_position PositionManager.close_position ;;
           log (SellOrder order))
          (fun e => log (FailedToSell e))
      else log InPositionHolding.

(** ** Vocabulary of the statements *)

(** The order requests among the events of a run. *)
Fixpoint orders (t : list Event) : list OrderRequest :=
  match t with
  | [] => []
  | Ordered o :: rest => o :: orders rest
  | Logged _ :: rest => orders rest
  end.

(** An event that is neither an order request nor the log line of
    [open_position] or [close_position]. *)
Definition quiet (ev : Event) : bool :=
  match ev with
  | Ordered _ => false
  | Logged (EnteredPosition _ _ _) => false
  | Logged ClosingPosition => false
  | Logged _ => true
  end.

(** The log line of a call of [open_position] or [close_position]. *)
Definition position_call (ev : Event) : bool :=
  match ev with
  | Logged (EnteredPosition _ _ _) => true
  | Logged ClosingPosition => true
  | _ => false
  end.

(** A computation that never writes the global [position]. *)
Definition keeps_position {A} (m : M World A) : Prop :=
  forall w, position (final (m w)) = position w.

(** The cycle started in [w] passes the cooldown gate and its fetching half
    returns the snapshot [s], leaving the globals as [w1]: the cycle gets
    to decide on [s]. *)
Definition reaches_decision (env : Env) (w : World) (s : Snapshot) (w1 : World)
  : Prop :=
  exists w0 t0 t1,
    can_trade (now_check env) (now_stamp env) w = (Ret true, w0, t0)
    /\ observe env w0 = (Ret s, w1, t1).

(** The data steps of a cycle succeed: the exchange client answers, with
    a price that is a non-zero number and volumes of non-zero sum, the
    labelled frame has a row, and fitting the classifier succeeds. *)
Definition cycle_data_ok (env : Env) : Prop :=
  exists p bal bid ask bars rows,
    get_price env = Ret (Some p) /\ ~ p == 0
    /\ get_usdt_balance env = Ret bal
    /\ get_order_book_stats env = Ret (bid, ask)
    /\ ~ bid + ask == 0
    /\ get_historical_data env = Ret bars
    /\ calculate_indicators (ta_indicators env) bars bid ask = Ret rows
    /\ add_target rows 3 <> []
    /\ (forall X, exists m, RandomForest_fit env X = Ret m).

(** Whatever the order submission raises is an [Exception]. *)
Definition order_failures_are_exceptions (env : Env) : Prop :=
  forall o e, create_order env o = Raise e -> is_Exception e = true.

(** ** Sample inputs

    Concrete collaborators on which the statements below are run. *)

Definition sample_bar (t : Z) (c : Q) : Bar :=
  {| timestamp := t; open := c; high := c; low := c; close := c; volume := 1 |}.

(** Five bars, the most recent one with time stamp 5. *)
Definition sample_bars : list Bar :=
  [ sample_bar 1 100; sample_bar 2 100; sample_bar 3 100;
    sample_bar 4 100; sample_bar 5 100 ].

(** Indicator columns without NaN; [SMA_20] carries the time stamp of the
    bar, so that a feature vector tells which bar it belongs to. *)
Definition sample_ta (df : list Bar) : list Indicators :=
  map (fun b =>
         {| SMA_20 := Fin (inject_Z (timestamp b)); SMA_50 := Fin 0;
            RSI := Fin 0; MACD := Fin 0; BB_upper := Fin 0; BB_lower := Fin 0;
            ATR := Fin 0; Stoch_K := Fin 0; Stoch_D := Fin 0; VWAP := Fin 0;
            volume_zscore := Fin 0 |}) df.

(** A classifier that answers the same class and confidence everywhere. *)
Definition constant_model (cls : Z) (conf : Q) : Model :=
  {| model_predict := fun _ => cls;
     model_predict_proba := fun _ => (conf, [1 - conf]) |}.

(** A classifier whose class is the time stamp found in the first feature:
    its answer shows which row it was asked about. *)
Definition revealing_model : Model :=
  {| model_predict := fun v => match v with Fin q :: _ => Qfloor q | _ => 0%Z end;
     model_predict_proba := fun _ => (1, []) |}.

Definition sample_env (price : option Q) (balance : Q) (volumes : Q * Q)
  (exchange : OrderRequest -> result string) : Env :=
  {| now_check := 0%Z; now_stamp := 0%Z;
     get_price := Ret price;
     get_usdt_balance := Ret balance;
     get_order_book_stats := Ret volumes;
     get_historical_data := Ret sample_bars;
     ta_indicators := sample_ta;
     RandomForest_fit := fun _ => Ret (constant_model 0 1);
     create_order := exchange |}.

Definition accepting : OrderRequest -> result string :=
  fun _ => Ret "receipt"%string.

Definition rejecting : OrderRequest -> result string :=
  fun _ => Raise (ExternalError "rejected"%string).

(** ** Exchange client

    The methods of [BinanceUSClient] that turn the answers of the exchange
    into the numbers [main] works with.  [float_of] stands for Python's
    [float(...)] on the strings of the answer; it raises on a string that
    is not a number. *)

Module BinanceUSClient.

(** An entry of [get_all_tickers()]. *)
Record Ticker : Type := mkTicker {
  symbol : string;
  price : string
}.

Section Client.

Variable float_of : string -> result Q.

(** [get_price]: the price of the first ticker with the symbol, [None]
    when no ticker has it. *)
Fixpoint get_price (tickers : list Ticker) (sym : string) : result (option Q) :=
  match tickers with
  | [] => Ret None
  | ticker :: rest =>
      if String.eqb (symbol ticker) sym then
        match float_of (price ticker) with
        | Ret p => Ret (Some p)
        | Raise e => Raise e
        end
      else get_price rest sym
  end.

(** [sum(float(level[1]) for level in levels)], from the running total
    [acc]; a level of the book is the pair of its price and quantity. *)
Fixpoint sum_quantities (acc : Q) (levels : list (string * string)) : result Q :=
  match levels with
  | [] => Ret acc
  | level :: rest =>
      match float_of (snd level) with
      | Ret q => sum_quantities (acc + q) rest
      | Raise e => Raise e
      end
  end.

(** [get_order_book_stats] on the bids and asks of [get_order_book]. *)
Definition get_order_book_stats (bids asks : list (string * string))
  : result (Q * Q) :=
  match sum_quantities 0 bids with
  | Raise e => Raise e
  | Ret bid_volume =>
      match sum_quantities 0 asks with
      | Raise e => Raise e
      | Ret ask_volume => Ret (bid_volume, ask_volume)
      end
  end.

End Client.

End BinanceUSClient.

(** ** Further sample inputs *)

(** The same collaborators at another time of the clock. *)
Definition at_time (t : datetime) (env : Env) : Env :=
  {| now_check := t; now_stamp := t;
     get_price := get_price env;
     get_usdt_balance := get_usdt_balance env;
     get_order_book_stats := get_order_book_stats env;
     get_historical_data := get_historical_data env;
     ta_indicators := ta_indicators env;
     RandomForest_fit := RandomForest_fit env;
     create_order := create_order env |}.


(** An exchange whose order submission is interrupted from the keyboard. *)
Definition interrupted : OrderRequest -> result string :=
  fun _ => Raise KeyboardInterrupt.

(** A [float(...)] that knows two strings. *)
Definition sample_float_of (s : string) : result Q :=
  if String.eqb s "100.5" then Ret 100.5
  else if String.eqb s "2" then Ret 2
  else Raise (ExternalError "could not convert string to float"%string).

(** Five bars whose close moves: the fourth closes 1% above the first,
    the fifth 1% below the second. *)
Definition moving_bars : list Bar :=
  [ sample_bar 1 100; sample_bar 2 100; sample_bar 3 100;
    sample_bar 4 101; sample_bar 5 99 ].

(** Their feature rows, with the sample indicators and an imbalance of
    0.5. *)
Definition moving_rows : list FeatureRow :=
  map (fun bi => {| bar := fst bi; ind := snd bi; OBI := 0.5 |})
      (combine moving_bars (sample_ta moving_bars)).

(** * Properties *)

Lemma Qlt_bool_iff (a b : Q) : Qlt_bool a b = true <-> a < b.
Proof.
  unfold Qlt_bool. rewrite negb_true_iff.
  destruct (Qle_bool b a) eqn:E.
  - apply Qle_bool_iff in E. split; [discriminate | intros H; lra].
  - split; [intros _ | reflexivity].
    destruct (Qlt_le_dec a b) as [H | H]; [exact H |].
    apply Qle_bool_iff in H. congruence.
Qed.

Lemma Qle_bool_false_iff (a b : Q) : Qle_bool a b = false <-> b < a.
Proof.
  rewrite <- Qlt_bool_iff. unfold Qlt_bool. apply iff_sym, negb_true_iff.
Qed.

(** ** The monad *)

Lemma bind_assoc {S A B C} (m : M S A) (k : A -> M S B) (h : B -> M S C) (s : S) :
  bind (bind m k) h s = bind m (fun a => bind (k a) h) s.
Proof.
  unfold bind. destruct (m s) as [[[a | e] s1] t1]; [| reflexivity].
  destruct (k a s1) as [[[b | e] s2] t2]; [| reflexivity].
  destruct (h b s2) as [[r s3] t3]. now rewrite app_assoc.
Qed.

Lemma bind_ext {S A B} (m : M S A) (k k' : A -> M S B) (s : S) :
  (forall a s', k a s' = k' a s') -> bind m k s = bind m k' s.
Proof.
  intros H. unfold bind. destruct (m s) as [[[a | e] s1] t1]; [| reflexivity].
  now rewrite H.
Qed.

Lemma bind_ret_l {S A B} (a : A) (k : A -> M S B) (s : S) :
  bind (ret a) k s = k a s.
Proof.
  unfold bind, ret. now destruct (k a s) as [[r s'] t].
Qed.

(** [main] is the cooldown gate followed by [observe] and [decide]. *)
Lemma main_split (env : Env) (w : World) :
  main env w =
  (log Running ;;
   ok <- can_trade (now_check env) (now_stamp env) ;;
   if negb ok then log CooldownActive
   else s <- observe env ;; decide env s) w.
Proof.
  unfold main. apply bind_ext; intros _ w1. apply bind_ext; intros ok w2.
  destruct ok; simpl; [| reflexivity].
  unfold observe.
  repeat (rewrite bind_assoc; apply bind_ext; intros ? ?).
  destruct a1 as [bid_volume ask_volume].
  repeat (rewrite bind_assoc; apply bind_ext; intros ? ?).
  destruct a6 as [prediction confidence].
  rewrite bind_assoc. apply bind_ext; intros ? ?.
  rewrite bind_ret_l. reflexivity.
Qed.

(** ** What leaves the position untouched *)

Lemma keeps_bind {A B} (m : M World A) (k : A -> M World B) :
  keeps_position m -> (forall a, keeps_position (k a)) -> keeps_position (bind m k).
Proof.
  intros Hm Hk w. specialize (Hm w). unfold bind, final in *.
  destruct (m w) as [[[a | e] w1] t1]; simpl in *; [| exact Hm].
  specialize (Hk a w1). unfold final in Hk.
  destruct (k a w1) as [[r w2] t2]; simpl in *. congruence.
Qed.

Lemma keeps_ret {A} (a : A) : keeps_position (ret a).
Proof. intros w. reflexivity. Qed.

Lemma keeps_raise {A} (e : exn) : keeps_position (@raise World A e).
Proof. intros w. reflexivity. Qed.

Lemma keeps_lift {A} (r : result A) : keeps_position (lift r).
Proof. intros w. reflexivity. Qed.

Lemma keeps_log (m : LogMsg) : keeps_position (log m).
Proof. intros w. reflexivity. Qed.

Lemma keeps_get : keeps_position get.
Proof. intros w. reflexivity. Qed.

Lemma keeps_can_trade (t1 t2 : datetime) : keeps_position (can_trade t1 t2).
Proof.
  intros w. unfold can_trade, bind, get, put, ret, final. simpl.
  destruct (last_trade_time w) as [last |]; [| reflexivity].
  destruct (60 <? timedelta_seconds t1 last)%Z; reflexivity.
Qed.

Lemma keeps_train_or_load_model fit df : keeps_position (train_or_load_model fit df).
Proof.
  intros w. unfold train_or_load_model, bind, get, put, ret, lift, final. simpl.
  destruct (model_file w) as [m |]; [reflexivity |].
  destruct (fit _) as [m | e]; reflexivity.
Qed.

Create HintDb keeps.

#[local] Hint Resolve keeps_ret keeps_raise keeps_lift keeps_log keeps_get
  keeps_can_trade keeps_train_or_load_model : keeps.

Ltac keeps_step :=
  match goal with
  | |- keeps_position (bind _ _) => apply keeps_bind; [| intros ? ]
  | |- keeps_position (match ?x with _ => _ end) => destruct x
  | |- keeps_position (if ?b then _ else _) => destruct b
  | |- keeps_position _ => solve [auto with keeps]
  end.

Lemma keeps_observe (env : Env) : keeps_position (observe env).
Proof. unfold observe. repeat keeps_step. Qed.

(** [should_close_position] never writes its object. *)
Lemma should_close_position_pure (p : option Q) (pm : PositionManager) :
  final (PositionManager.should_close_position p pm) = pm.
Proof.
  unfold PositionManager.should_close_position, bind, get, lift, log, emit, ret, final.
  destruct (py_ge p (take_profit pm)) as [[|] | e]; simpl; try reflexivity.
  destruct (py_le p (stop_loss pm)) as [[|] | e]; reflexivity.
Qed.

(** Case analysis on a scrutinee of the goal that is not itself a case
    analysis, then the reductions that the chosen case allows. *)
Ltac no_match_in x :=
  lazymatch x with
  | context [match _ with _ => _ end] => fail
  | _ => idtac
  end.

Ltac reduce_cases :=
  cbv beta iota zeta delta
    [fst snd negb in_position entry_price take_profit stop_loss quantity] in *.

Ltac case_split :=
  match goal with
  | |- context [match ?x with _ => _ end] =>
      no_match_in x; destruct x eqn:?; reduce_cases
  end.

Ltac unfold_monad :=
  cbv beta iota zeta delta
    [bind ret raise get put lift emit log try_except zoom on_position
     submit_order outcome final trace] in *.

Ltac unfold_main :=
  unfold main, decide, observe, can_trade, train_or_load_model,
    PositionManager.should_close_position, PositionManager.close_position,
    PositionManager.open_position;
  unfold_monad;
  cbv beta iota zeta delta
    [set_position set_last_trade_time set_model_file position
     last_trade_time model_file] in *.

(** ** The shape of a cycle *)

Lemma orders_app (t1 t2 : list Event) : orders (t1 ++ t2) = orders t1 ++ orders t2.
Proof.
  induction t1 as [| [m | o] t1 IH]; simpl; [reflexivity | exact IH |].
  now rewrite IH.
Qed.

Lemma quiet_no_orders (t : list Event) : forallb quiet t = true -> orders t = [].
Proof.
  induction t as [| [m | o] t IH]; simpl; intros H; [reflexivity | | discriminate].
  apply andb_prop in H. now apply IH.
Qed.

Lemma can_trade_result (t1 t2 : datetime) (w : World) :
  exists b w0, can_trade t1 t2 w = (Ret b, w0, []) /\ position w0 = position w.
Proof.
  unfold can_trade. unfold_monad.
  destruct (match last_trade_time w with
            | Some last => (60 <? timedelta_seconds t1 last)%Z
            | None => true
            end); eexists; eexists; split; reflexivity.
Qed.

(** The fetching half sends no order and calls neither [open_position]
    nor [close_position]. *)
Lemma observe_quiet (env : Env) (w : World) :
  forallb quiet (trace (observe env w)) = true.
Proof.
  unfold observe, train_or_load_model. unfold_monad.
  repeat case_split; reflexivity.
Qed.

(** A cycle that gets to decide is the deciding half run on the snapshot,
    after a quiet prefix that leaves [position] alone. *)
Lemma main_of_decide (env : Env) (w : World) (s : Snapshot) (w1 : World) :
  reaches_decision env w s w1 ->
  exists pre,
    forallb quiet pre = true
    /\ position w1 = position w
    /\ main env w
       = (outcome (decide env s w1), final (decide env s w1),
          pre ++ trace (decide env s w1)).
Proof.
  intros (w0 & t0 & t1 & Hgate & Hobs).
  pose proof (keeps_can_trade (now_check env) (now_stamp env) w) as Hk0.
  pose proof (keeps_observe env w0) as Hk1.
  pose proof (observe_quiet env w0) as Hq.
  destruct (can_trade_result (now_check env) (now_stamp env) w) as (b & w0' & Hg & _).
  rewrite Hgate in Hg. injection Hg as <- <- ->.
  rewrite Hgate in Hk0. rewrite Hobs in Hk1, Hq. unfold final, trace in Hk0, Hk1, Hq.
  simpl in Hk0, Hk1, Hq.
  exists (Logged Running :: t1). repeat split.
  - exact Hq.
  - congruence.
  - rewrite main_split. unfold bind, log, emit, outcome, final, trace.
    rewrite Hgate. simpl. rewrite Hobs.
    destruct (decide env s w1) as [[r w2] t2]. reflexivity.
Qed.

(** A cycle gets to decide, or it ends quietly with [position] as it
    was. *)
Lemma main_cases (env : Env) (w : World) :
  (exists s w1, reaches_decision env w s w1)
  \/ (position (final (main env w)) = position w
      /\ forallb quiet (trace (main env w)) = true).
Proof.
  destruct (can_trade_result (now_check env) (now_stamp env) w)
    as (b & w0 & Hgate & Hpos0).
  pose proof (keeps_observe env w0) as Hk1.
  pose proof (observe_quiet env w0) as Hq.
  destruct (observe env w0) as [[[s | e] w1] t1] eqn:Hobs.
  - destruct b.
    + left. exists s, w1, w0, [], t1. split; assumption.
    + right. rewrite main_split. unfold bind, log, emit, final, trace.
      rewrite Hgate. simpl. split; [exact Hpos0 | reflexivity].
  - right. rewrite main_split. unfold bind, log, emit, final, trace in *.
    rewrite Hgate. destruct b; simpl.
    + rewrite Hobs. simpl in *. split; [congruence | exact Hq].
    + split; [exact Hpos0 | reflexivity].
Qed.

(** From an open position, the deciding half leaves [position] as it is,
    or closes it and logs the close: it never opens or re-prices. *)
Lemma decide_in_position (env : Env) (s : Snapshot) (w : World) :
  in_position (position w) = true ->
  position (final (decide env s w)) = position w
  \/ (position (final (decide env s w)) = Flat
      /\ In (Logged ClosingPosition) (trace (decide env s w))).
Proof.
  intros Hin. destruct w as [[inp entry tp sl qty] ltt mf]. simpl in Hin. subst inp.
  unfold_main. reduce_cases.
  repeat case_split; auto;
    right; (split; [reflexivity |]);
    repeat rewrite in_app_iff; simpl; tauto.
Qed.

(** A cycle that starts with an open position ends with the same
    [position], or with a closed one after logging the close. *)
Lemma main_in_position (env : Env) (w : World) :
  in_position (position w) = true ->
  position (final (main env w)) = position w
  \/ (position (final (main env w)) = Flat
      /\ In (Logged ClosingPosition) (trace (main env w))).
Proof.
  intros Hin. destruct (main_cases env w) as [(s & w1 & Hr) | [Hpos _]].
  - destruct (main_of_decide env w s w1 Hr) as (pre & _ & Hpos & ->).
    unfold final, trace at 1. simpl.
    rewrite <- Hpos in Hin |- *.
    destruct (decide_in_position env s w1 Hin) as [H | [H Hc]].
    + left. exact H.
    + right. split; [exact H |]. apply in_or_app. now right.
  - left. exact Hpos.
Qed.


(** ** Position manager: claims C1, C7, C9 and C10 *)

(** C1 (amended).  In state Long, [should_close_position] returns true
    exactly when the price is at or above the take-profit or at or below
    the stop-loss, the two cases being told apart by the log line, and the
    state is left as it is.  In state Flat the thresholds are [None] and
    the call raises [TypeError] instead of returning false. *)
Theorem should_close_position_long_or_flat :
  (forall entry tp sl qty p,
      exists b t,
        PositionManager.should_close_position (Some p) (Long entry tp sl qty)
        = (Ret b, Long entry tp sl qty, t)
        /\ (b = true <-> (tp <= p \/ p <= sl))
        /\ (tp <= p -> t = [Logged (TakeProfitHit (Some p))])
        /\ (p < tp -> p <= sl -> t = [Logged (StopLossHit (Some p))])
        /\ (b = false -> t = []))
  /\ (forall p,
        PositionManager.should_close_position p Flat = (Raise TypeError, Flat, [])).
Proof.
  split.
  - intros entry tp sl qty p.
    unfold PositionManager.should_close_position, Long. unfold_monad. simpl.
    destruct (Qle_bool tp p) eqn:Htp.
    + apply Qle_bool_iff in Htp.
      exists true, [Logged (TakeProfitHit (Some p))].
      repeat split; auto; try discriminate. intros H. lra.
    + apply Qle_bool_false_iff in Htp.
      destruct (Qle_bool p sl) eqn:Hsl.
      * apply Qle_bool_iff in Hsl.
        exists true, [Logged (StopLossHit (Some p))].
        repeat split; auto; try discriminate. intros H. lra.
      * apply Qle_bool_false_iff in Hsl.
        exists false, [].
        repeat split; auto; try discriminate; intros; lra.
  - intros [p |]; reflexivity.
Qed.

(** C1, as stated, fails in state Flat: the call does not return false. *)
Lemma should_close_position_flat_not_false :
  outcome (PositionManager.should_close_position (Some 99.5) Flat) = Raise TypeError
  /\ outcome (PositionManager.should_close_position (Some 99.5) Flat) <> Ret false.
Proof. split; [reflexivity | discriminate]. Qed.

(** C7 (amended).  [open_position] on an open position returns normally
    and overwrites entry, quantity, take-profit and stop-loss with the new
    values; the guard is in the decision cycle, which, started with an
    open position, leaves it as it is or closes it.  [close_position] in
    state Flat returns normally and leaves the state Flat. *)
Theorem open_overwrites_close_flat_noop (env : Env) (w : World)
  (Hin : in_position (position w) = true) :
  (forall entry tp sl qty price quantity tpm slm,
      outcome (PositionManager.open_position price quantity tpm slm
                 (Long entry tp sl qty)) = Ret tt
      /\ final (PositionManager.open_position price quantity tpm slm
                  (Long entry tp sl qty))
         = Long price (price * tpm) (price * slm) quantity)
  /\ (position (final (main env w)) = position w
      \/ position (final (main env w)) = Flat)
  /\ outcome (PositionManager.close_position Flat) = Ret tt
  /\ final (PositionManager.close_position Flat) = Flat.
Proof.
  repeat split.
  destruct (main_in_position env w Hin) as [H | [H _]]; auto.
Qed.

Lemma open_overwrites_close_flat_noop_witness :
  position
    (final (main (sample_env (Some 100) 1000 (30, 10) accepting)
              (set_position (Long 100 100.7 98.5 2)
                 (initial_world (Some (constant_model 1 0.75))))))
  = Long 100 100.7 98.5 2
  \/ position
       (final (main (sample_env (Some 100) 1000 (30, 10) accepting)
                 (set_position (Long 100 100.7 98.5 2)
                    (initial_world (Some (constant_model 1 0.75))))))
     = Flat.
Proof.
  refine (proj1 (proj2
    (open_overwrites_close_flat_noop
       (sample_env (Some 100) 1000 (30, 10) accepting)
       (set_position (Long 100 100.7 98.5 2)
          (initial_world (Some (constant_model 1 0.75)))) _))).
  reflexivity.
Defined.

(** C7, as stated, fails for [open_position]: called on an open position
    it raises nothing and replaces the position. *)
Lemma open_position_replaces_long :
  outcome (PositionManager.open_position 200 1
             PositionManager.tp_multiplier_default
             PositionManager.sl_multiplier_default (Long 100 100.7 98.5 2)) = Ret tt
  /\ entry_price (final (PositionManager.open_position 200 1
             PositionManager.tp_multiplier_default
             PositionManager.sl_multiplier_default (Long 100 100.7 98.5 2)))
     = Some 200
  /\ final (PositionManager.open_position 200 1
             PositionManager.tp_multiplier_default
             PositionManager.sl_multiplier_default (Long 100 100.7 98.5 2))
     <> Long 100 100.7 98.5 2.
Proof. repeat split. discriminate. Qed.



(** C10.  The constructor gives a field-consistent position manager, and
    [open_position] and [close_position] (and [should_close_position])
    take a field-consistent position manager to a field-consistent
    one. *)
Theorem position_manager_field_consistent (pm : PositionManager)
  (price quantity tpm slm : Q) (p : option Q)
  (Hpm : field_consistent pm = true) :
  field_consistent PositionManager.init = true
  /\ field_consistent
       (final (PositionManager.open_position price quantity tpm slm pm)) = true
  /\ field_consistent (final (PositionManager.close_position pm)) = true
  /\ field_consistent (final (PositionManager.should_close_position p pm)) = true.
Proof.
  repeat split. rewrite should_close_position_pure. exact Hpm.
Qed.

Lemma position_manager_field_consistent_witness :
  field_consistent
    (final (PositionManager.open_position 100 2 1.007 0.985 Flat)) = true
  /\ field_consistent
       (final (PositionManager.close_position (Long 100 100.7 98.5 2))) = true.
Proof.
  split.
  - apply (position_manager_field_consistent Flat 100 2 1.007 0.985 None).
    reflexivity.
  - apply (position_manager_field_consistent (Long 100 100.7 98.5 2)
             100 2 1.007 0.985 None).
    reflexivity.
Defined.

(** ** Cooldown gate: claim C2 *)

Lemma timedelta_seconds_small (a b : datetime) :
  (0 <= a - b < 86400000000)%Z ->
  timedelta_seconds a b = ((a - b) / 1000000)%Z.
Proof.
  intros H. unfold timedelta_seconds. now rewrite Z.mod_small.
Qed.

(** C2 (amended).  With no stored time stamp, [can_trade] returns true and
    stores the current time.  With a stored time stamp less than a day
    old, it returns true and stores the current time exactly when more
    than 60 whole seconds have elapsed, that is at least 61 seconds;
    otherwise it returns false and leaves the time stamp as it is.  So of
    two successive calls the second returns true exactly when it comes at
    least 61 seconds (and less than a day) after the time stored by the
    first. *)
Theorem can_trade_cooldown (w : World) (t_check t_stamp : datetime)
  (Hday : forall last, last_trade_time w = Some last ->
                       (0 <= t_check - last < 86400000000)%Z) :
  (last_trade_time w = None ->
   can_trade t_check t_stamp w
   = (Ret true, set_last_trade_time (Some t_stamp) w, []))
  /\ (forall last, last_trade_time w = Some last ->
        (61000000 <= t_check - last)%Z ->
        can_trade t_check t_stamp w
        = (Ret true, set_last_trade_time (Some t_stamp) w, []))
  /\ (forall last, last_trade_time w = Some last ->
        (t_check - last < 61000000)%Z ->
        can_trade t_check t_stamp w = (Ret false, w, []))
  /\ (forall t_check' t_stamp' w',
        (0 <= t_check' - t_stamp < 86400000000)%Z ->
        outcome (can_trade t_check t_stamp w) = Ret true ->
        w' = final (can_trade t_check t_stamp w) ->
        (outcome (can_trade t_check' t_stamp' w') = Ret true
         <-> (61000000 <= t_check' - t_stamp)%Z)).
Proof.
  assert (Hgt : forall a b, (0 <= a - b < 86400000000)%Z ->
                  ((60 <? timedelta_seconds a b)%Z = true
                   <-> (61000000 <= a - b)%Z)).
  { intros a b Hab. rewrite timedelta_seconds_small by exact Hab.
    rewrite Z.ltb_lt. split; intros H.
    - pose proof (Z.div_mod (a - b) 1000000) as Hd.
      pose proof (Z.mod_pos_bound (a - b) 1000000). lia.
    - apply Z.lt_le_trans with (61000000 / 1000000)%Z; [reflexivity |].
      apply Z.div_le_mono; lia. }
  split; [| split; [| split]].
  - intros Hnone. unfold can_trade. unfold_monad. now rewrite Hnone.
  - intros last Hlast Hge. unfold can_trade. unfold_monad. rewrite Hlast.
    apply (Hgt _ _ (Hday last Hlast)) in Hge. now rewrite Hge.
  - intros last Hlast Hlt. unfold can_trade. unfold_monad. rewrite Hlast.
    destruct (60 <? timedelta_seconds t_check last)%Z eqn:E; [| reflexivity].
    apply (Hgt _ _ (Hday last Hlast)) in E. lia.
  - intros t_check' t_stamp' w' Hday' Hfirst Hw'. subst w'.
    rewrite <- (Hgt _ _ Hday'). revert Hfirst.
    unfold can_trade. unfold_monad.
    destruct (match last_trade_time w with
              | Some last => (60 <? timedelta_seconds t_check last)%Z
              | None => true
              end); [| discriminate].
    intros _. simpl.
    destruct (60 <? timedelta_seconds t_check' t_stamp)%Z; simpl;
      split; congruence.
Qed.

Lemma can_trade_cooldown_witness :
  can_trade 61000000 61000005 (set_last_trade_time (Some 0%Z) (initial_world None))
  = (Ret true,
     set_last_trade_time (Some 61000005%Z)
       (set_last_trade_time (Some 0%Z) (initial_world None)), [])
  /\ can_trade 60999999 61000005 (set_last_trade_time (Some 0%Z) (initial_world None))
     = (Ret false, set_last_trade_time (Some 0%Z) (initial_world None), []).
Proof.
  split.
  - refine (proj1 (proj2
      (can_trade_cooldown (set_last_trade_time (Some 0%Z) (initial_world None))
         61000000 61000005 _)) 0%Z eq_refl _).
    + intros last H. cbv in H. injection H as <-. lia.
    + lia.
  - refine (proj1 (proj2 (proj2
      (can_trade_cooldown (set_last_trade_time (Some 0%Z) (initial_world None))
         60999999 61000005 _))) 0%Z eq_refl _).
    + intros last H. cbv in H. injection H as <-. lia.
    + lia.
Defined.

(** C2, as stated, fails at the boundary: 60 seconds (and up to just under
    61 seconds) after the stored time stamp [can_trade] still returns
    false. *)
Lemma can_trade_false_after_60_seconds :
  (60 * 1000000 <= 60000000 - 0)%Z
  /\ can_trade 60000000 60000000 (set_last_trade_time (Some 0%Z) (initial_world None))
     = (Ret false, set_last_trade_time (Some 0%Z) (initial_world None), [])
  /\ outcome (can_trade 60999999 60999999
                (set_last_trade_time (Some 0%Z) (initial_world None)))
     <> Ret true.
Proof.
  split; [lia |]. split; [reflexivity |]. discriminate.
Qed.

(** ** Labelling and prediction: claim C3 *)

Lemma In_combine_nth_error {A B} (l : list A) (l' : list B) (a : A) (b : B) :
  In (a, b) (combine l l') ->
  exists i, nth_error l i = Some a /\ nth_error l' i = Some b.
Proof.
  revert l'. induction l as [| x l IH]; intros [| y l'] H; simpl in H; try tauto.
  destruct H as [H | H].
  - injection H as -> ->. exists 0%nat. split; reflexivity.
  - destruct (IH l' H) as (i & Hi & Hi'). exists (S i). split; assumption.
Qed.

(** A row keeps a shifted value only if it has [horizon] rows after it. *)
Lemma shift_up_some (horizon : nat) (col : list Q) (i : nat) (a : Q) :
  nth_error (shift_up horizon col) i = Some (Some a) ->
  (i + horizon < List.length col)%nat.
Proof.
  unfold shift_up. intros H.
  assert (Hlen : List.length (skipn horizon (map Some col))
                 = (List.length col - horizon)%nat).
  { now rewrite length_skipn, length_map. }
  destruct (Nat.lt_ge_cases i (List.length col - horizon)) as [Hlt | Hge].
  - lia.
  - rewrite nth_error_app2 in H by lia.
    apply nth_error_In, repeat_spec in H. discriminate.
Qed.

Lemma iloc_last_In {A} (df : list A) (r : A) : iloc_last df = Ret r -> In r df.
Proof.
  unfold iloc_last. intros H. apply in_rev.
  destruct (rev df) as [| x l]; [discriminate |].
  injection H as ->. now left.
Qed.

(** Every row that [add_target] keeps has [horizon] rows after it in the
    frame it was given: the last [horizon] rows are always dropped. *)
Lemma add_target_drops_tail (df : list FeatureRow) (horizon : nat) (r : LabelledRow) :
  In r (add_target df horizon) ->
  exists i, nth_error df i = Some (row r) /\ (i + horizon < List.length df)%nat.
Proof.
  unfold add_target. intros H.
  apply filter_In in H. destruct H as [H Hkeep].
  apply in_map_iff in H. destruct H as ([fr s] & <- & H).
  apply In_combine_nth_error in H. destruct H as (i & Hdf & Hs).
  simpl in *. exists i. split; [exact Hdf |].
  apply andb_prop in Hkeep. destruct Hkeep as [_ Hfr].
  destruct s as [a |]; [| discriminate].
  apply shift_up_some in Hs. now rewrite length_map in Hs.
Qed.

(** The row on which [predict] asks the oracle, after the labelling with
    horizon 3, has at least three rows after it in the feature frame: it
    is never the row of the most recent bar. *)
Lemma predicted_row_lags (df : list FeatureRow) (r : LabelledRow) :
  iloc_last (add_target df 3) = Ret r ->
  exists i, nth_error df i = Some (row r) /\ (i + 3 < List.length df)%nat.
Proof.
  intros H. apply add_target_drops_tail. now apply iloc_last_In.
Qed.

(** C3 on the code.  On the sample series all five bars have a complete
    feature row, the most recent bar has time stamp 5, and the cycle asks
    the oracle about the row of the bar with time stamp 2: labelling has
    removed the rows of the three most recent bars before the prediction.
    On every frame, the row that [predict] takes after the labelling has
    at least three rows after it, so it is not the latest row. *)
Theorem prediction_on_stale_row :
  let env := sample_env (Some 100) 1000 (30, 10) accepting in
  let w := initial_world (Some revealing_model) in
  map timestamp sample_bars = [1; 2; 3; 4; 5]%Z
  /\ (exists rows,
        calculate_indicators (ta_indicators env) sample_bars 30 10 = Ret rows
        /\ map (fun r => timestamp (bar r)) rows = [1; 2; 3; 4; 5]%Z
        /\ map (fun r => timestamp (bar (row r))) (add_target rows 3) = [1; 2]%Z
        /\ predict (add_target rows 3) revealing_model = Ret (2%Z, 1))
  /\ In (Logged (ModelPrediction 2 1)) (trace (main env w))
  /\ ~ In (Logged (ModelPrediction 5 1)) (trace (main env w))
  /\ (forall df r,
        iloc_last (add_target df 3) = Ret r ->
        exists i, nth_error df i = Some (row r) /\ (i + 3 < List.length df)%nat).
Proof.
  intros env w. split; [reflexivity |]. split.
  - eexists. split; [reflexivity |]. repeat split.
  - split; [| split].
    + vm_compute. tauto.
    + vm_compute. intros H.
      repeat (destruct H as [H | H]; [discriminate H |]). exact H.
    + exact predicted_row_lags.
Qed.

(** ** The decision: claims C4, C5 and C8 *)

Lemma quiet_no_position_call (t : list Event) :
  forallb quiet t = true -> existsb position_call t = false.
Proof.
  induction t as [| ev t IH]; simpl; intros H; [reflexivity |].
  apply andb_prop in H. destruct H as [Hev Ht]. rewrite (IH Ht).
  destruct ev as [[] | o]; simpl in *; congruence.
Qed.


(** When every order is refused with an [Exception], the deciding half
    returns normally whenever it sent an order, having logged the failure,
    and it leaves [position] alone without calling [open_position] or
    [close_position]. *)
Lemma decide_failed_order (env : Env) (s : Snapshot) (w : World) (e : exn) :
  (forall o, create_order env o = Raise e) ->
  is_Exception e = true ->
  position (final (decide env s w)) = position w
  /\ existsb position_call (trace (decide env s w)) = false
  /\ (orders (trace (decide env s w)) <> [] ->
      outcome (decide env s w) = Ret tt
      /\ (In (Logged (FailedToBuy e)) (trace (decide env s w))
          \/ In (Logged (FailedToSell e)) (trace (decide env s w)))).
Proof.
  intros Hrefuse Hexc. destruct w as [pm ltt mf].
  unfold_main.
  repeat case_split;
    repeat match goal with
      | Hc : create_order env _ = _ |- _ =>
          rewrite Hrefuse in Hc; first [discriminate Hc | injection Hc as <-]
      end;
    try congruence;
    (split; [reflexivity | split; [reflexivity |]]);
    simpl; intros Hne; try (now elim Hne);
    (split; [reflexivity |]); rewrite ?in_app_iff; simpl; tauto.
Qed.

(** C4.  In a cycle whose order submission raises an [Exception] (BUY or
    SELL alike), the position manager ends as it started, neither
    [open_position] nor [close_position] is called, and a cycle that has
    sent an order returns normally: the failure is caught and logged
    inside the cycle. *)
Theorem failed_order_leaves_position (env : Env) (w : World) (e : exn)
  (Hrefuse : forall o, create_order env o = Raise e)
  (Hexc : is_Exception e = true) :
  position (final (main env w)) = position w
  /\ existsb position_call (trace (main env w)) = false
  /\ (orders (trace (main env w)) <> [] ->
      outcome (main env w) = Ret tt
      /\ (In (Logged (FailedToBuy e)) (trace (main env w))
          \/ In (Logged (FailedToSell e)) (trace (main env w)))).
Proof.
  destruct (main_cases env w) as [(s & w1 & Hr) | [Hpos Hq]].
  - destruct (main_of_decide env w s w1 Hr) as (pre & Hpre & Hpos & ->).
    destruct (decide_failed_order env s w1 e Hrefuse Hexc) as (Hd1 & Hd2 & Hd3).
    destruct (decide env s w1) as [[r w2] t2].
    cbn [outcome final trace fst snd] in *.
    split; [congruence |]. split.
    + rewrite existsb_app, Hd2, (quiet_no_position_call _ Hpre). reflexivity.
    + rewrite orders_app, (quiet_no_orders _ Hpre). simpl. intros Hne.
      destruct (Hd3 Hne) as [Hret Hlog]. split; [exact Hret |].
      rewrite !in_app_iff. tauto.
  - split; [exact Hpos |]. split; [exact (quiet_no_position_call _ Hq) |].
    intros Hne. elim Hne. exact (quiet_no_orders _ Hq).
Qed.

Lemma failed_order_leaves_position_witness :
  position
    (final (main (sample_env (Some 100) 1000 (30, 10) rejecting)
              (initial_world (Some (constant_model 1 0.75)))))
  = Flat.
Proof.
  apply (failed_order_leaves_position
           (sample_env (Some 100) 1000 (30, 10) rejecting)
           (initial_world (Some (constant_model 1 0.75)))
           (ExternalError "rejected"%string)).
  - intros o. reflexivity.
  - reflexivity.
Defined.

(** What [should_close_position] answers for an open position. *)
Lemma long_breach_answer (entry tp sl qty p : Q) :
  outcome (PositionManager.should_close_position (Some p) (Long entry tp sl qty))
  = Ret (Qle_bool tp p || Qle_bool p sl).
Proof.
  unfold PositionManager.should_close_position, Long. unfold_monad. simpl.
  destruct (Qle_bool tp p); [reflexivity |].
  destruct (Qle_bool p sl); reflexivity.
Qed.

(** The deciding half on an open position, with a price and enough
    confidence. *)
Lemma decide_long (env : Env) (s : Snapshot) (w : World) (entry tp sl qty p : Q) :
  position w = Long entry tp sl qty ->
  snap_live_price s = Some p ->
  Qlt_bool (snap_confidence s) CONFIDENCE_THRESHOLD = false ->
  let sell := ((snap_prediction s =? -1)%Z && (Qle_bool tp p || Qle_bool p sl))%bool in
  (sell = false ->
   outcome (decide env s w) = Ret tt
   /\ final (decide env s w) = w
   /\ orders (trace (decide env s w)) = [])
  /\ (sell = true ->
      orders (trace (decide env s w)) = [MarketSell (Some qty)]
      /\ forall receipt,
          create_order env (MarketSell (Some qty)) = Ret receipt ->
          outcome (decide env s w) = Ret tt
          /\ position (final (decide env s w)) = Flat).
Proof.
  intros Hpos Hprice Hconf sell. subst sell.
  destruct w as [pm ltt mf]. simpl in Hpos. subst pm.
  unfold_main. rewrite Hprice, Hconf. unfold Long. reduce_cases.
  destruct (snap_prediction s =? -1)%Z; simpl;
    [destruct (Qle_bool tp p); simpl; [| destruct (Qle_bool p sl); simpl] |];
    (split; intros Hsell; try discriminate Hsell);
    try (repeat split; reflexivity);
    (destruct (create_order env (MarketSell (Some qty))) as [o | e] eqn:Ho;
     [| destruct (is_Exception e)]; simpl;
     (split; [reflexivity |]); intros receipt Hr; try discriminate Hr;
     split; reflexivity).
Qed.

(** C5.  In a cycle that starts with an open position and decides on a
    signal of confidence at least 0.6, a SELL order for the held quantity
    is the one order sent exactly when the class is -1 and
    [should_close_position] answers true at the current price, and a
    successful order closes the position; in every other case (class -1
    without a breach, a breach without class -1) no order is sent and the
    position stays as it is. *)
Theorem sell_iff_bearish_and_breach (env : Env) (w w1 : World) (s : Snapshot)
  (entry tp sl qty p : Q)
  (Hlong : position w = Long entry tp sl qty)
  (Hreach : reaches_decision env w s w1)
  (Hprice : snap_live_price s = Some p)
  (Hconf : CONFIDENCE_THRESHOLD <= snap_confidence s) :
  let close_now :=
    snap_prediction s = (-1)%Z
    /\ outcome (PositionManager.should_close_position (Some p) (position w))
       = Ret true in
  (orders (trace (main env w)) = [MarketSell (Some qty)] <-> close_now)
  /\ (close_now ->
      forall receipt,
        create_order env (MarketSell (Some qty)) = Ret receipt ->
        outcome (main env w) = Ret tt /\ position (final (main env w)) = Flat)
  /\ (~ close_now ->
      orders (trace (main env w)) = []
      /\ position (final (main env w)) = Long entry tp sl qty
      /\ outcome (main env w) = Ret tt).
Proof.
  intros close_now. subst close_now.
  rewrite Hlong, long_breach_answer.
  destruct (main_of_decide env w s w1 Hreach) as (pre & Hpre & Hpos & ->).
  assert (Hc : Qlt_bool (snap_confidence s) CONFIDENCE_THRESHOLD = false).
  { apply not_true_is_false. rewrite Qlt_bool_iff. lra. }
  rewrite Hlong in Hpos.
  destruct (decide_long env s w1 entry tp sl qty p Hpos Hprice Hc) as [Hno Hyes].
  destruct (decide env s w1) as [[r w2] t2].
  cbn [outcome final trace fst snd] in *.
  rewrite orders_app, (quiet_no_orders _ Hpre). cbn [app].
  assert (Hiff : (snap_prediction s = (-1)%Z
                  /\ Ret (Qle_bool tp p || Qle_bool p sl) = Ret true)
                 <-> ((snap_prediction s =? -1)%Z
                      && (Qle_bool tp p || Qle_bool p sl))%bool = true).
  { rewrite andb_true_iff, Z.eqb_eq. split; intros [H1 H2]; split; congruence. }
  destruct ((snap_prediction s =? -1)%Z && (Qle_bool tp p || Qle_bool p sl))%bool.
  - destruct (Hyes eq_refl) as [Ho Hsucc]. split; [| split].
    + rewrite Hiff. split; auto.
    + intros _ receipt Hr. exact (Hsucc receipt Hr).
    + intros Hn. elim Hn. apply Hiff. reflexivity.
  - destruct (Hno eq_refl) as (Hr & Hw & Ho). split; [| split].
    + rewrite Hiff, Ho. split; discriminate.
    + intros Hy. apply Hiff in Hy. discriminate.
    + intros _. subst w2. auto.
Qed.

Lemma sell_iff_bearish_and_breach_witness :
  orders (trace (main (sample_env (Some 99.9) 1000 (30, 10) accepting)
                   (set_position (Long 100 100.7 98.5 2)
                      (initial_world (Some (constant_model (-1) 0.75))))))
  = []
  /\ position (final (main (sample_env (Some 99.9) 1000 (30, 10) accepting)
                        (set_position (Long 100 100.7 98.5 2)
                           (initial_world (Some (constant_model (-1) 0.75))))))
     = Long 100 100.7 98.5 2.
Proof.
  pose (env := sample_env (Some 99.9) 1000 (30, 10) accepting).
  pose (w := set_position (Long 100 100.7 98.5 2)
               (initial_world (Some (constant_model (-1) 0.75)))).
  pose (s := {| snap_live_price := Some 99.9; snap_usdt_balance := 1000;
                snap_prediction := (-1)%Z;
                snap_confidence := Qmaxb 0.75 (1 - 0.75) |}).
  destruct (sell_iff_bearish_and_breach env w
              (set_last_trade_time (Some 0%Z) w) s 100 100.7 98.5 2 99.9)
    as (_ & _ & Hhold).
  - reflexivity.
  - exists (set_last_trade_time (Some 0%Z) w), [].
    eexists. split; reflexivity.
  - reflexivity.
  - vm_compute. discriminate.
  - destruct Hhold as (Ho & Hp & _).
    + intros [_ Hbreach]. vm_compute in Hbreach. discriminate Hbreach.
    + split; [exact Ho | exact Hp].
Defined.





(** ** The loop: claim C6 *)

Lemma iloc_last_nonempty {A} (df : list A) :
  df <> [] -> exists r, iloc_last df = Ret r.
Proof.
  intros H. unfold iloc_last. destruct (rev df) as [| r l] eqn:E.
  - elim H. apply (f_equal (@rev A)) in E. now rewrite rev_involutive in E.
  - now exists r.
Qed.

(** Past the cooldown gate, a cycle is its two halves after the first log
    line. *)
Lemma main_gate_open (env : Env) (w w0 : World) :
  can_trade (now_check env) (now_stamp env) w = (Ret true, w0, []) ->
  main env w
  = (outcome ((s <- observe env ;; decide env s) w0),
     final ((s <- observe env ;; decide env s) w0),
     Logged Running :: trace ((s <- observe env ;; decide env s) w0)).
Proof.
  intros Hgate. rewrite main_split.
  unfold bind at 1, log, emit. unfold bind at 1. rewrite Hgate. cbn [negb].
  destruct ((s <- observe env ;; decide env s) w0) as [[r w2] t2]. reflexivity.
Qed.

Lemma observe_ok (env : Env) (w : World) :
  cycle_data_ok env ->
  exists s w1 t p,
    observe env w = (Ret s, w1, t) /\ snap_live_price s = Some p /\ ~ p == 0.
Proof.
  intros (p & bal & bid & ask & bars & rows
          & Hp & Hp0 & Hb & Hv & Hv0 & Hh & Hrows & Hne & Hfit).
  assert (Hdiv : py_div (bid - ask) (bid + ask) = Ret ((bid - ask) / (bid + ask))).
  { unfold py_div. destruct (Qeq_bool (bid + ask) 0) eqn:E; [| reflexivity].
    apply Qeq_bool_iff in E. contradiction. }
  destruct (iloc_last_nonempty _ Hne) as [r Hr].
  unfold observe, train_or_load_model, predict. unfold_monad.
  rewrite Hp, Hb, Hv, Hdiv, Hh, Hrows, Hr. cbn beta iota.
  destruct (model_file w) as [m |].
  - do 3 eexists. exists p. split; [reflexivity |]. split; [reflexivity | exact Hp0].
  - destruct (Hfit (map (fun r0 => (features (row r0), target r0))
                      (add_target rows 3))) as [m Hm].
    rewrite Hm. cbn beta iota.
    do 3 eexists. exists p. split; [reflexivity |]. split; [reflexivity | exact Hp0].
Qed.

(** With a price and a field-consistent position manager, the deciding
    half returns normally whenever the order submission raises nothing
    but [Exception]s, and keeps the position manager field-consistent. *)
Lemma decide_ok (env : Env) (s : Snapshot) (w : World) (p : Q) :
  field_consistent (position w) = true ->
  snap_live_price s = Some p ->
  ~ p == 0 ->
  order_failures_are_exceptions env ->
  outcome (decide env s w) = Ret tt
  /\ field_consistent (position (final (decide env s w))) = true.
Proof.
  intros Hcons Hprice Hp Hcaught.
  assert (Hp0 : Qeq_bool p 0 = false).
  { apply not_true_is_false. intros H. apply Hp. now apply Qeq_bool_iff. }
  destruct w as [[inp entry tp sl qty] ltt mf].
  destruct inp, entry, tp, sl, qty; try discriminate Hcons; clear Hcons;
    unfold_main; unfold py_div, py_ge, py_le; rewrite Hprice, Hp0;
    reduce_cases;
    repeat case_split;
    repeat match goal with
      | Hc : create_order env _ = Raise ?e, Hi : is_Exception ?e = false |- _ =>
          rewrite (Hcaught _ _ Hc) in Hi; discriminate Hi
      end;
    split; reflexivity.
Qed.

Lemma main_ok (env : Env) (w : World) :
  cycle_data_ok env ->
  order_failures_are_exceptions env ->
  field_consistent (position w) = true ->
  outcome (main env w) = Ret tt
  /\ field_consistent (position (final (main env w))) = true.
Proof.
  intros Hdata Hcaught Hcons.
  destruct (can_trade_result (now_check env) (now_stamp env) w)
    as (b & w0 & Hgate & Hpos0).
  destruct b.
  - destruct (observe_ok env w0 Hdata) as (s & w1 & t & p & Hobs & Hprice & Hp).
    assert (Hr : reaches_decision env w s w1).
    { exists w0, [], t. split; assumption. }
    destruct (main_of_decide env w s w1 Hr) as (pre & _ & Hpos & ->).
    rewrite <- Hpos in Hcons.
    destruct (decide_ok env s w1 p Hcons Hprice Hp Hcaught) as [Ho Hf].
    split; [exact Ho | exact Hf].
  - rewrite main_split. unfold bind, log, emit, outcome, final.
    rewrite Hgate. simpl. split; [reflexivity | now rewrite Hpos0].
Qed.

Lemma run_forever_ok (envs : list Env) :
  Forall cycle_data_ok envs ->
  Forall order_failures_are_exceptions envs ->
  forall w,
    field_consistent (position w) = true ->
    outcome (run_forever envs w) = Ret tt.
Proof.
  induction envs as [| env rest IH]; intros Hdata Hcaught w Hcons.
  - reflexivity.
  - inversion Hdata as [| ? ? Hd Hds]; subst.
    inversion Hcaught as [| ? ? Hc Hcs]; subst.
    destruct (main_ok env w Hd Hc Hcons) as [Ho Hf].
    specialize (IH Hds Hcs (final (main env w)) Hf).
    simpl run_forever. unfold bind, log, emit, outcome, final in *.
    destruct (main env w) as [[r w1] t1]. simpl in Ho, Hf, IH. subst r.
    destruct (run_forever rest w1) as [[r2 w2] t2]. exact IH.
Qed.

(** An exception that leaves [main] leaves the loop: nothing of the later
    iterations happens. *)
Lemma run_forever_stops (env : Env) (rest : list Env) (w : World) (e : exn) :
  outcome (main env w) = Raise e ->
  run_forever (env :: rest) w = (Raise e, final (main env w), trace (main env w)).
Proof.
  intros H. simpl run_forever. unfold bind, outcome, final, trace in *.
  destruct (main env w) as [[r w1] t1]. simpl in H. now subst r.
Qed.

Lemma observe_price_failure (env : Env) (w : World) (e : exn) :
  get_price env = Raise e -> observe env w = (Raise e, w, []).
Proof.
  intros H. unfold observe. unfold_monad. now rewrite H.
Qed.

Lemma observe_zero_volume (env : Env) (w : World) (lp : option Q) (bal bid ask : Q) :
  get_price env = Ret lp ->
  get_usdt_balance env = Ret bal ->
  get_order_book_stats env = Ret (bid, ask) ->
  bid + ask == 0 ->
  observe env w = (Raise ZeroDivisionError, w, []).
Proof.
  intros Hp Hb Hv H0. apply Qeq_bool_iff in H0.
  unfold observe, py_div. unfold_monad. now rewrite Hp, Hb, Hv, H0.
Qed.

Lemma observe_no_rows (env : Env) (w : World) (lp : option Q) (bal bid ask : Q)
  (bars : list Bar) (rows : list FeatureRow) (m : Model) :
  get_price env = Ret lp ->
  get_usdt_balance env = Ret bal ->
  get_order_book_stats env = Ret (bid, ask) ->
  get_historical_data env = Ret bars ->
  calculate_indicators (ta_indicators env) bars bid ask = Ret rows ->
  add_target rows 3 = [] ->
  model_file w = Some m ->
  outcome (observe env w) = Raise IndexError.
Proof.
  intros Hp Hb Hv Hh Hrows Hempty Hm.
  assert (Hdiv : exists obi, py_div (bid - ask) (bid + ask) = Ret obi).
  { unfold calculate_indicators in Hrows.
    destruct (py_div (bid - ask) (bid + ask)) as [obi | e]; [| discriminate].
    now exists obi. }
  destruct Hdiv as [obi Hdiv].
  unfold observe, train_or_load_model, predict. unfold_monad.
  now rewrite Hp, Hb, Hv, Hdiv, Hh, Hrows, Hm, Hempty.
Qed.

Lemma main_observe_raises (env : Env) (w : World) (e : exn) :
  outcome (can_trade (now_check env) (now_stamp env) w) = Ret true ->
  outcome (observe env (final (can_trade (now_check env) (now_stamp env) w)))
  = Raise e ->
  outcome (main env w) = Raise e.
Proof.
  destruct (can_trade_result (now_check env) (now_stamp env) w)
    as (b & w0 & Hgate & _).
  rewrite Hgate. unfold outcome at 1, final at 1. simpl. intros Hb Hobs.
  injection Hb as ->. rewrite (main_gate_open env w w0 Hgate).
  unfold outcome at 1. simpl. unfold bind, outcome in *.
  destruct (observe env w0) as [[r w1] t1]. simpl in Hobs. now subst r.
Qed.

(** C6 (amended).  An [Exception] raised by the order submission ends only
    its cycle: when the data steps of every cycle succeed, every
    iteration of the loop returns and the loop goes on, whether the
    orders are accepted or refused.  The failures of the data steps are
    not caught: past the cooldown gate, a failing price fetch, a zero sum
    of bid and ask volumes ([ZeroDivisionError]) and a labelled frame
    without rows ([IndexError]) leave [main], and whatever leaves [main]
    ends [run_forever] before any later iteration. *)
Theorem loop_survives_only_order_failures (envs : list Env) (w : World)
  (Hdata : Forall cycle_data_ok envs)
  (Hcaught : Forall order_failures_are_exceptions envs)
  (Hcons : field_consistent (position w) = true) :
  outcome (run_forever envs w) = Ret tt
  /\ (forall env rest w' e,
        outcome (main env w') = Raise e ->
        run_forever (env :: rest) w'
        = (Raise e, final (main env w'), trace (main env w')))
  /\ (forall env w' e,
        outcome (can_trade (now_check env) (now_stamp env) w') = Ret true ->
        get_price env = Raise e ->
        outcome (main env w') = Raise e)
  /\ (forall env w' lp bal bid ask,
        outcome (can_trade (now_check env) (now_stamp env) w') = Ret true ->
        get_price env = Ret lp ->
        get_usdt_balance env = Ret bal ->
        get_order_book_stats env = Ret (bid, ask) ->
        bid + ask == 0 ->
        outcome (main env w') = Raise ZeroDivisionError)
  /\ (forall env w' lp bal bid ask bars rows m,
        outcome (can_trade (now_check env) (now_stamp env) w') = Ret true ->
        get_price env = Ret lp ->
        get_usdt_balance env = Ret bal ->
        get_order_book_stats env = Ret (bid, ask) ->
        get_historical_data env = Ret bars ->
        calculate_indicators (ta_indicators env) bars bid ask = Ret rows ->
        add_target rows 3 = [] ->
        model_file w' = Some m ->
        outcome (main env w') = Raise IndexError).
Proof.
  split; [exact (run_forever_ok envs Hdata Hcaught w Hcons) |].
  split; [intros env rest w' e; apply run_forever_stops |].
  split; [| split].
  - intros env w' e Hgate Hp. apply main_observe_raises; [exact Hgate |].
    now rewrite (observe_price_failure env _ e Hp).
  - intros env w' lp bal bid ask Hgate Hp Hb Hv H0.
    apply main_observe_raises; [exact Hgate |].
    now rewrite (observe_zero_volume env _ lp bal bid ask Hp Hb Hv H0).
  - intros env w' lp bal bid ask bars rows m Hgate Hp Hb Hv Hh Hrows Hempty Hm.
    apply main_observe_raises; [exact Hgate |].
    apply (observe_no_rows env _ lp bal bid ask bars rows m); try assumption.
    destruct (can_trade_result (now_check env) (now_stamp env) w')
      as (b & w0 & Hg & _).
    rewrite Hg. unfold final. simpl.
    revert Hg. unfold can_trade. unfold_monad.
    destruct (match last_trade_time w' with
              | Some last => (60 <? timedelta_seconds (now_check env) last)%Z
              | None => true
              end); intros Hg; injection Hg as _ <-; exact Hm.
Qed.

Lemma sample_env_data_ok (price balance : Q)
  (exchange : OrderRequest -> result string) :
  ~ price == 0 -> cycle_data_ok (sample_env (Some price) balance (30, 10) exchange).
Proof.
  intros Hp. exists price, balance, 30, 10, sample_bars.
  eexists. repeat split; try reflexivity.
  - exact Hp.
  - intros H. vm_compute in H. discriminate H.
  - vm_compute. discriminate.
  - intros X. eexists. reflexivity.
Qed.

Lemma loop_survives_only_order_failures_witness :
  outcome
    (run_forever
       [ sample_env (Some 100) 1000 (30, 10) rejecting;
         sample_env (Some 100) 1000 (30, 10) accepting ]
       (initial_world (Some (constant_model 1 0.75))))
  = Ret tt.
Proof.
  apply (loop_survives_only_order_failures
           [ sample_env (Some 100) 1000 (30, 10) rejecting;
             sample_env (Some 100) 1000 (30, 10) accepting ]
           (initial_world (Some (constant_model 1 0.75)))).
  - repeat constructor; apply sample_env_data_ok;
      intros H; vm_compute in H; discriminate H.
  - repeat constructor; intros o e H; vm_compute in H.
    + injection H as <-. reflexivity.
    + discriminate H.
  - reflexivity.
Defined.

(** C6, as stated, fails: a cycle that meets a zero sum of bid and ask
    volumes raises out of [main], and the loop ends there; the second
    iteration is never run. *)
Lemma zero_volume_stops_the_loop :
  run_forever
    [ sample_env (Some 100) 1000 (0, 0) accepting;
      sample_env (Some 100) 1000 (30, 10) accepting ]
    (initial_world (Some (constant_model 1 0.75)))
  = (Raise ZeroDivisionError,
     set_last_trade_time (Some 0%Z) (initial_world (Some (constant_model 1 0.75))),
     [Logged Running])
  /\ outcome
       (run_forever
          [ sample_env (Some 100) 1000 (0, 0) accepting;
            sample_env (Some 100) 1000 (30, 10) accepting ]
          (initial_world (Some (constant_model 1 0.75))))
     <> Ret tt.
Proof.
  split; [reflexivity | discriminate].
Qed.

(** * Further properties of the code *)

(** ** The decision cycle *)

(** X1.  A cycle that decides on a signal of confidence below 0.6 holds,
    whatever the class and whatever the position: it returns normally,
    sends no order, calls neither [open_position] nor [close_position]
    and leaves the globals as the fetching half left them. *)
Theorem low_confidence_holds (env : Env) (w w1 : World) (s : Snapshot)
  (Hreach : reaches_decision env w s w1)
  (Hlow : snap_confidence s < CONFIDENCE_THRESHOLD) :
  outcome (main env w) = Ret tt
  /\ final (main env w) = w1
  /\ position (final (main env w)) = position w
  /\ orders (trace (main env w)) = []
  /\ existsb position_call (trace (main env w)) = false
  /\ In (Logged LowConfidence) (trace (main env w)).
Proof.
  destruct (main_of_decide env w s w1 Hreach) as (pre & Hpre & Hpos & ->).
  apply Qlt_bool_iff in Hlow.
  unfold decide. rewrite Hlow. unfold_monad. simpl.
  repeat split; try assumption.
  - rewrite orders_app, (quiet_no_orders _ Hpre). reflexivity.
  - rewrite existsb_app, (quiet_no_position_call _ Hpre). reflexivity.
  - apply in_or_app. right. now left.
Qed.

Lemma low_confidence_holds_witness :
  orders (trace (main (sample_env (Some 100) 1000 (30, 10) accepting)
                   (initial_world (Some (constant_model 1 0.55)))))
  = []
  /\ position (final (main (sample_env (Some 100) 1000 (30, 10) accepting)
                        (initial_world (Some (constant_model 1 0.55)))))
     = Flat.
Proof.
  pose (env := sample_env (Some 100) 1000 (30, 10) accepting).
  pose (w := initial_world (Some (constant_model 1 0.55))).
  pose (s := {| snap_live_price := Some 100; snap_usdt_balance := 1000;
                snap_prediction := 1%Z;
                snap_confidence := Qmaxb 0.55 (1 - 0.55) |}).
  destruct (low_confidence_holds env w (set_last_trade_time (Some 0%Z) w) s)
    as (_ & _ & Hpos & Ho & _).
  - exists (set_last_trade_time (Some 0%Z) w), [].
    eexists. split; reflexivity.
  - vm_compute. reflexivity.
  - exact (conj Ho Hpos).
Defined.

Lemma seconds_gt_60_iff (a b : datetime) :
  (0 <= a - b < 86400000000)%Z ->
  ((60 <? timedelta_seconds a b)%Z = true <-> (61000000 <= a - b)%Z).
Proof.
  intros Hab. rewrite timedelta_seconds_small by exact Hab.
  rewrite Z.ltb_lt. split; intros H.
  - pose proof (Z.div_mod (a - b) 1000000) as Hd.
    pose proof (Z.mod_pos_bound (a - b) 1000000). lia.
  - apply Z.lt_le_trans with (61000000 / 1000000)%Z; [reflexivity |].
    apply Z.div_le_mono; lia.
Qed.

(** X2.  A cycle started less than 61 seconds after the stored time stamp
    is skipped whole: it logs the skip and returns with the globals
    untouched, and nothing of the environment is consulted (the result is
    the same for every exchange, data and model). *)
Theorem cooldown_skips_cycle (env : Env) (w : World) (last : datetime)
  (Hlast : last_trade_time w = Some last)
  (Hsoon : (0 <= now_check env - last < 61000000)%Z) :
  main env w = (Ret tt, w, [Logged Running; Logged CooldownActive]).
Proof.
  assert (Hno : (60 <? timedelta_seconds (now_check env) last)%Z = false).
  { apply not_true_is_false. intros H.
    apply seconds_gt_60_iff in H; lia. }
  unfold main, can_trade. unfold_monad. rewrite Hlast, Hno. reflexivity.
Qed.

Lemma cooldown_skips_cycle_witness :
  main (at_time 30000000 (sample_env None 0 (0, 0) rejecting))
    (set_last_trade_time (Some 0%Z) (initial_world None))
  = (Ret tt, set_last_trade_time (Some 0%Z) (initial_world None),
     [Logged Running; Logged CooldownActive]).
Proof.
  apply (cooldown_skips_cycle
           (at_time 30000000 (sample_env None 0 (0, 0) rejecting))
           (set_last_trade_time (Some 0%Z) (initial_world None)) 0%Z).
  - reflexivity.
  - cbv [at_time now_check]. lia.
Defined.

(** X3.  Without a position, a cycle that decides on a class other than
    +1 with confidence at least 0.6 sends no order and stays without a
    position. *)
Theorem flat_without_buy_signal_holds (env : Env) (w w1 : World) (s : Snapshot)
  (Hflat : in_position (position w) = false)
  (Hreach : reaches_decision env w s w1)
  (Hcls : snap_prediction s <> 1%Z)
  (Hconf : CONFIDENCE_THRESHOLD <= snap_confidence s) :
  outcome (main env w) = Ret tt
  /\ final (main env w) = w1
  /\ position (final (main env w)) = position w
  /\ orders (trace (main env w)) = []
  /\ In (Logged NoBuySignal) (trace (main env w)).
Proof.
  destruct (main_of_decide env w s w1 Hreach) as (pre & Hpre & Hpos & ->).
  assert (Hc : Qlt_bool (snap_confidence s) CONFIDENCE_THRESHOLD = false).
  { apply not_true_is_false. rewrite Qlt_bool_iff. lra. }
  apply Z.eqb_neq in Hcls. rewrite <- Hpos in Hflat.
  unfold decide. rewrite Hc. unfold_monad. rewrite Hflat, Hcls. simpl.
  repeat split; try assumption.
  - rewrite orders_app, (quiet_no_orders _ Hpre). reflexivity.
  - apply in_or_app. right. now left.
Qed.

Lemma flat_without_buy_signal_holds_witness :
  orders (trace (main (sample_env (Some 100) 1000 (30, 10) accepting)
                   (initial_world (Some (constant_model (-1) 0.75)))))
  = []
  /\ position (final (main (sample_env (Some 100) 1000 (30, 10) accepting)
                        (initial_world (Some (constant_model (-1) 0.75)))))
     = Flat.
Proof.
  pose (env := sample_env (Some 100) 1000 (30, 10) accepting).
  pose (w := initial_world (Some (constant_model (-1) 0.75))).
  pose (s := {| snap_live_price := Some 100; snap_usdt_balance := 1000;
                snap_prediction := (-1)%Z;
                snap_confidence := Qmaxb 0.75 (1 - 0.75) |}).
  destruct (flat_without_buy_signal_holds env w
              (set_last_trade_time (Some 0%Z) w) s)
    as (_ & _ & Hpos & Ho & _).
  - reflexivity.
  - exists (set_last_trade_time (Some 0%Z) w), [].
    eexists. split; reflexivity.
  - discriminate.
  - vm_compute. discriminate.
  - exact (conj Ho Hpos).
Defined.

Lemma decide_at_most_one_order (env : Env) (s : Snapshot) (w : World) :
  (List.length (orders (trace (decide env s w))) <= 1)%nat.
Proof.
  destruct w as [pm ltt mf]. unfold_main.
  repeat case_split; simpl; lia.
Qed.

Lemma main_at_most_one_order (env : Env) (w : World) :
  (List.length (orders (trace (main env w))) <= 1)%nat.
Proof.
  destruct (main_cases env w) as [(s & w1 & Hr) | [_ Hq]].
  - destruct (main_of_decide env w s w1 Hr) as (pre & Hpre & _ & ->).
    unfold trace at 1. simpl.
    rewrite orders_app, (quiet_no_orders _ Hpre). apply decide_at_most_one_order.
  - rewrite (quiet_no_orders _ Hq). simpl. lia.
Qed.

(** X4.  A cycle sends at most one order, whatever the environment and
    the globals; so the loop sends at most one order per iteration. *)
Theorem at_most_one_order_per_cycle (envs : list Env) (w : World) :
  (forall env, (List.length (orders (trace (main env w))) <= 1)%nat)
  /\ (List.length (orders (trace (run_forever envs w))) <= List.length envs)%nat.
Proof.
  split; [intros env; apply main_at_most_one_order |].
  revert w. induction envs as [| env rest IH]; intros w; [simpl; lia |].
  pose proof (main_at_most_one_order env w) as Hm.
  simpl run_forever. unfold bind, log, emit, trace in *.
  destruct (main env w) as [[[[] | e] w1] t1]; simpl in *; [| lia].
  specialize (IH w1). destruct (run_forever rest w1) as [[r2 w2] t2]; simpl in *.
  rewrite orders_app, length_app. simpl. lia.
Qed.

Lemma decide_consistent (env : Env) (s : Snapshot) (w : World) :
  field_consistent (position w) = true ->
  field_consistent (position (final (decide env s w))) = true.
Proof.
  intros Hcons. destruct w as [[inp entry tp sl qty] ltt mf].
  destruct inp, entry, tp, sl, qty; try discriminate Hcons; clear Hcons;
    unfold_main; unfold py_ge, py_le; reduce_cases;
    repeat case_split; reflexivity.
Qed.

Lemma main_consistent (env : Env) (w : World) :
  field_consistent (position w) = true ->
  field_consistent (position (final (main env w))) = true.
Proof.
  intros Hcons. destruct (main_cases env w) as [(s & w1 & Hr) | [Hpos _]].
  - destruct (main_of_decide env w s w1 Hr) as (pre & _ & Hpos & ->).
    unfold final at 1. simpl. apply decide_consistent. now rewrite Hpos.
  - now rewrite Hpos.
Qed.

(** X5.  The field-consistency of the position manager is an invariant of
    the whole program: whatever the exchange, the data and the model do,
    including every exception, each cycle and any number of iterations of
    the loop take a field-consistent position manager to a
    field-consistent one; from the start of the process it always
    holds. *)
Theorem program_keeps_fields_consistent (envs : list Env) (w : World)
  (Hcons : field_consistent (position w) = true) :
  field_consistent (position (final (run_forever envs w))) = true
  /\ (forall env, field_consistent (position (final (main env w))) = true)
  /\ (forall file,
        field_consistent
          (position (final (run_forever envs (initial_world file)))) = true).
Proof.
  assert (Hloop : forall l w0, field_consistent (position w0) = true ->
            field_consistent (position (final (run_forever l w0))) = true).
  { induction l as [| env rest IH]; intros w0 H0; [exact H0 |].
    pose proof (main_consistent env w0 H0) as Hm.
    simpl run_forever. unfold bind, log, emit, final in *.
    destruct (main env w0) as [[[[] | e] w1] t1]; simpl in *; [| exact Hm].
    specialize (IH w1 Hm). destruct (run_forever rest w1) as [[r2 w2] t2].
    exact IH. }
  split; [exact (Hloop envs w Hcons) |].
  split; [intros env; exact (main_consistent env w Hcons) |].
  intros file. apply Hloop. reflexivity.
Qed.

Lemma program_keeps_fields_consistent_witness :
  field_consistent
    (position
       (final (run_forever
                 [ sample_env (Some 100) 1000 (30, 10) accepting;
                   sample_env None 1000 (0, 0) rejecting ]
                 (initial_world None)))) = true.
Proof.
  apply (program_keeps_fields_consistent
           [ sample_env (Some 100) 1000 (30, 10) accepting;
             sample_env None 1000 (0, 0) rejecting ]
           (initial_world None)).
  reflexivity.
Defined.

Lemma decide_base_exception (env : Env) (s : Snapshot) (w : World) (e : exn) :
  (forall o, create_order env o = Raise e) ->
  is_Exception e = false ->
  position (final (decide env s w)) = position w
  /\ existsb position_call (trace (decide env s w)) = false
  /\ (orders (trace (decide env s w)) <> [] -> outcome (decide env s w) = Raise e).
Proof.
  intros Hraise Hbase. destruct w as [pm ltt mf].
  unfold_main.
  repeat case_split;
    repeat match goal with
      | Hc : create_order env _ = _ |- _ =>
          rewrite Hraise in Hc; first [discriminate Hc | injection Hc as <-]
      end;
    try congruence;
    (split; [reflexivity | split; [reflexivity |]]);
    simpl; intros Hne; first [reflexivity | now elim Hne].
Qed.

(** X6.  What the order submission raises outside the [Exception] classes
    (such as [KeyboardInterrupt]) is not caught: a cycle that has sent an
    order ends with that exception leaving [main], without a call of
    [open_position] or [close_position] and with the position manager as
    it was. *)
Theorem base_exception_escapes (env : Env) (w : World) (e : exn)
  (Hraise : forall o, create_order env o = Raise e)
  (Hbase : is_Exception e = false) :
  position (final (main env w)) = position w
  /\ existsb position_call (trace (main env w)) = false
  /\ (orders (trace (main env w)) <> [] -> outcome (main env w) = Raise e).
Proof.
  destruct (main_cases env w) as [(s & w1 & Hr) | [Hpos Hq]].
  - destruct (main_of_decide env w s w1 Hr) as (pre & Hpre & Hpos & ->).
    destruct (decide_base_exception env s w1 e Hraise Hbase) as (Hd1 & Hd2 & Hd3).
    destruct (decide env s w1) as [[r w2] t2].
    cbn [outcome final trace fst snd] in *.
    split; [congruence |]. split.
    + rewrite existsb_app, Hd2, (quiet_no_position_call _ Hpre). reflexivity.
    + rewrite orders_app, (quiet_no_orders _ Hpre). exact Hd3.
  - split; [exact Hpos |]. split; [exact (quiet_no_position_call _ Hq) |].
    intros Hne. elim Hne. exact (quiet_no_orders _ Hq).
Qed.

Lemma base_exception_escapes_witness :
  outcome (main (sample_env (Some 100) 1000 (30, 10) interrupted)
             (initial_world (Some (constant_model 1 0.75))))
  = Raise KeyboardInterrupt.
Proof.
  refine (proj2 (proj2
    (base_exception_escapes
       (sample_env (Some 100) 1000 (30, 10) interrupted)
       (initial_world (Some (constant_model 1 0.75)))
       KeyboardInterrupt _ _)) _).
  - intros o. reflexivity.
  - reflexivity.
  - vm_compute. discriminate.
Defined.

(** X7.  Without a position, on class +1 with confidence at least 0.6, a
    price that is missing ([get_price] answered [None]) makes the cycle
    raise [TypeError], and a price of zero makes it raise
    [ZeroDivisionError]; in both cases the exception leaves [main] before
    any order is sent, and the position manager is as it was. *)
Theorem buy_without_usable_price_raises (env : Env) (w w1 : World) (s : Snapshot)
  (Hflat : in_position (position w) = false)
  (Hreach : reaches_decision env w s w1)
  (Hcls : snap_prediction s = 1%Z)
  (Hconf : CONFIDENCE_THRESHOLD <= snap_confidence s) :
  (snap_live_price s = None ->
   outcome (main env w) = Raise TypeError
   /\ orders (trace (main env w)) = []
   /\ position (final (main env w)) = position w)
  /\ (forall p, snap_live_price s = Some p -> p == 0 ->
      outcome (main env w) = Raise ZeroDivisionError
      /\ orders (trace (main env w)) = []
      /\ position (final (main env w)) = position w).
Proof.
  destruct (main_of_decide env w s w1 Hreach) as (pre & Hpre & Hpos & ->).
  assert (Hc : Qlt_bool (snap_confidence s) CONFIDENCE_THRESHOLD = false).
  { apply not_true_is_false. rewrite Qlt_bool_iff. lra. }
  rewrite <- Hpos in Hflat.
  split.
  - intros Hnone. unfold decide. rewrite Hc, Hnone, Hcls. unfold_monad.
    rewrite Hflat. simpl.
    rewrite orders_app, (quiet_no_orders _ Hpre). repeat split. exact Hpos.
  - intros p Hsome Hzero. apply Qeq_bool_iff in Hzero.
    unfold decide, py_div. rewrite Hc, Hsome, Hcls. unfold_monad.
    rewrite Hflat, Hzero. simpl.
    rewrite orders_app, (quiet_no_orders _ Hpre). repeat split. exact Hpos.
Qed.

Lemma buy_without_usable_price_raises_witness :
  outcome (main (sample_env None 1000 (30, 10) accepting)
             (initial_world (Some (constant_model 1 0.75))))
  = Raise TypeError
  /\ outcome (main (sample_env (Some 0) 1000 (30, 10) accepting)
                (initial_world (Some (constant_model 1 0.75))))
     = Raise ZeroDivisionError.
Proof.
  pose (w := initial_world (Some (constant_model 1 0.75))).
  split.
  - pose (env := sample_env None 1000 (30, 10) accepting).
    pose (s := {| snap_live_price := None; snap_usdt_balance := 1000;
                  snap_prediction := 1%Z;
                  snap_confidence := Qmaxb 0.75 (1 - 0.75) |}).
    destruct (buy_without_usable_price_raises env w
                (set_last_trade_time (Some 0%Z) w) s) as [Hnone _].
    + reflexivity.
    + exists (set_last_trade_time (Some 0%Z) w), [].
      eexists. split; reflexivity.
    + reflexivity.
    + vm_compute. discriminate.
    + exact (proj1 (Hnone eq_refl)).
  - pose (env := sample_env (Some 0) 1000 (30, 10) accepting).
    pose (s := {| snap_live_price := Some 0; snap_usdt_balance := 1000;
                  snap_prediction := 1%Z;
                  snap_confidence := Qmaxb 0.75 (1 - 0.75) |}).
    destruct (buy_without_usable_price_raises env w
                (set_last_trade_time (Some 0%Z) w) s) as [_ Hzero].
    + reflexivity.
    + exists (set_last_trade_time (Some 0%Z) w), [].
      eexists. split; reflexivity.
    + reflexivity.
    + vm_compute. discriminate.
    + exact (proj1 (Hzero 0 eq_refl (Qeq_refl 0))).
Defined.

Lemma decide_change (env : Env) (s : Snapshot) (w : World) :
  in_position (position (final (decide env s w))) <> in_position (position w) ->
  exists o receipt,
    create_order env o = Ret receipt
    /\ orders (trace (decide env s w)) = [o]
    /\ match o with
       | MarketBuy _ =>
           in_position (position w) = false
           /\ In (Logged (BuyOrder receipt)) (trace (decide env s w))
       | MarketSell q =>
           in_position (position w) = true /\ q = quantity (position w)
           /\ In (Logged (SellOrder receipt)) (trace (decide env s w))
       end.
Proof.
  destruct w as [[inp entry tp sl qty] ltt mf].
  destruct inp; unfold_main; reduce_cases;
    repeat case_split; simpl; intros H; try (now elim H);
    eexists; eexists; (split; [eassumption |]); (split; [reflexivity |]);
    simpl; rewrite ?in_app_iff; simpl; tauto.
Qed.

(** X8.  The position manager changes between open and closed only in a
    cycle whose one order the exchange accepted: from closed to open
    after an accepted BUY, from open to closed after an accepted SELL of
    the held quantity. *)
Theorem position_changes_only_after_accepted_order (env : Env) (w : World)
  (Hchange : in_position (position (final (main env w)))
             <> in_position (position w)) :
  exists o receipt,
    create_order env o = Ret receipt
    /\ orders (trace (main env w)) = [o]
    /\ match o with
       | MarketBuy _ =>
           in_position (position w) = false
           /\ In (Logged (BuyOrder receipt)) (trace (main env w))
       | MarketSell q =>
           in_position (position w) = true /\ q = quantity (position w)
           /\ In (Logged (SellOrder receipt)) (trace (main env w))
       end.
Proof.
  destruct (main_cases env w) as [(s & w1 & Hr) | [Hpos _]].
  - destruct (main_of_decide env w s w1 Hr) as (pre & Hpre & Hpos & Hmain).
    rewrite Hmain in *. unfold final at 1 in Hchange. simpl in Hchange.
    rewrite <- Hpos in Hchange |- *.
    destruct (decide_change env s w1 Hchange) as (o & receipt & Hc & Ho & Hm).
    exists o, receipt. split; [exact Hc |]. unfold trace at 1 2 3. simpl.
    split.
    + rewrite orders_app, (quiet_no_orders _ Hpre). exact Ho.
    + destruct o; rewrite in_app_iff; tauto.
  - elim Hchange. now rewrite Hpos.
Qed.

Lemma position_changes_only_after_accepted_order_witness :
  exists o receipt,
    accepting o = Ret receipt
    /\ orders (trace (main (sample_env (Some 100) 1000 (30, 10) accepting)
                        (initial_world (Some (constant_model 1 0.75)))))
       = [o].
Proof.
  destruct (position_changes_only_after_accepted_order
              (sample_env (Some 100) 1000 (30, 10) accepting)
              (initial_world (Some (constant_model 1 0.75))))
    as (o & receipt & Hc & Ho & _).
  - vm_compute. discriminate.
  - exists o, receipt. split; [exact Hc | exact Ho].
Defined.



(** ** Labelling *)





Lemma filter_map_repeat_none (df : list FeatureRow) (k : nat) :
  filter (fun lr => row_notna (row lr) && notna (future_return lr))
    (map (fun rs =>
            let fr := future_return_cell (snd rs) (close (bar (fst rs))) in
            {| row := fst rs; future_return := fr; target := label fr |})
         (combine df (repeat None k)))
  = [].
Proof.
  revert k. induction df as [| r df IH]; intros [| k]; simpl; try reflexivity.
  rewrite andb_false_r. apply IH.
Qed.

Lemma add_target_keeps_prefix (shifted : list Q) :
  forall (df : list FeatureRow) (k : nat),
    Forall (fun r => row_notna r = true /\ ~ close (bar r) == 0) df ->
    (List.length shifted <= List.length df)%nat ->
    map row
      (filter (fun lr => row_notna (row lr) && notna (future_return lr))
         (map (fun rs =>
                 let fr := future_return_cell (snd rs) (close (bar (fst rs))) in
                 {| row := fst rs; future_return := fr; target := label fr |})
              (combine df (map Some shifted ++ repeat None k))))
    = firstn (List.length shifted) df.
Proof.
  induction shifted as [| a shifted IH]; intros df k Hgood Hlen.
  - simpl app. rewrite filter_map_repeat_none. reflexivity.
  - destruct df as [| r df]; [simpl in Hlen; lia |].
    inversion Hgood as [| ? ? [Hrow Hclose] Hrest]; subst.
    simpl in Hlen. cbn [map app combine filter fst snd row future_return Datatypes.length firstn].
    assert (Hkeep : notna (future_return_cell (Some a) (close (bar r))) = true).
    { unfold future_return_cell.
      destruct (Qeq_bool (close (bar r)) 0) eqn:E; [| reflexivity].
      apply Qeq_bool_iff in E. contradiction. }
    rewrite Hrow, Hkeep. cbn [andb map row]. f_equal.
    apply IH; [exact Hrest | lia].
Qed.

(** X11.  On a frame without NaN and without a zero close, [add_target]
    keeps exactly the rows that have [horizon] rows after them, in their
    order: the frame without its last [horizon] rows. *)
Theorem add_target_keeps_all_but_tail (df : list FeatureRow) (horizon : nat)
  (Hgood : Forall (fun r => row_notna r = true /\ ~ close (bar r) == 0) df) :
  map row (add_target df horizon) = firstn (List.length df - horizon) df
  /\ List.length (add_target df horizon) = (List.length df - horizon)%nat.
Proof.
  assert (Hrows : map row (add_target df horizon)
                  = firstn (List.length df - horizon) df).
  { unfold add_target, shift_up.
    rewrite skipn_map.
    replace (List.length df - horizon)%nat
      with (List.length (skipn horizon (map (fun r => close (bar r)) df)))
      by (rewrite length_skipn, length_map; reflexivity).
    apply add_target_keeps_prefix; [exact Hgood |].
    rewrite length_skipn, length_map. lia. }
  split; [exact Hrows |].
  rewrite <- (length_map row), Hrows, length_firstn. lia.
Qed.

Lemma add_target_keeps_all_but_tail_witness :
  map row (add_target moving_rows 3) = firstn (5 - 3) moving_rows.
Proof.
  refine (proj1 (add_target_keeps_all_but_tail moving_rows 3 _)).
  repeat constructor; intros H; vm_compute in H; discriminate H.
Defined.

(** ** Indicators, model and prediction *)

Lemma obi_bounds (bid ask : Q) :
  0 <= bid -> 0 <= ask -> ~ bid + ask == 0 ->
  -1 <= (bid - ask) / (bid + ask) <= 1.
Proof.
  intros Hb Ha Hne.
  assert (Hpos : 0 < bid + ask).
  { destruct (Qlt_le_dec 0 (bid + ask)) as [H | H]; [exact H |].
    elim Hne. apply Qle_antisym; [exact H | lra]. }
  split.
  - apply Qle_shift_div_l; [exact Hpos | lra].
  - apply Qle_shift_div_r; [exact Hpos | lra].
Qed.



(** X13.  The classifier is trained once.  Without a model file, a
    successful fit is stored, and from then on every call returns that
    model and leaves the globals alone, whatever frame and whatever
    fitting procedure it is given; a failing fit stores nothing. *)
Theorem model_trained_once (fit : list (list fval * Z) -> result Model)
  (df : list LabelledRow) (w : World)
  (Hnone : model_file w = None) :
  (forall m,
      fit (map (fun r => (features (row r), target r)) df) = Ret m ->
      train_or_load_model fit df w = (Ret m, set_model_file (Some m) w, [])
      /\ forall fit' df',
          train_or_load_model fit' df' (set_model_file (Some m) w)
          = (Ret m, set_model_file (Some m) w, []))
  /\ (forall e,
        fit (map (fun r => (features (row r), target r)) df) = Raise e ->
        train_or_load_model fit df w = (Raise e, w, [])).
Proof.
  split.
  - intros m Hfit. split.
    + unfold train_or_load_model. unfold_monad. now rewrite Hnone, Hfit.
    + intros fit' df'. reflexivity.
  - intros e Hfit. unfold train_or_load_model. unfold_monad.
    now rewrite Hnone, Hfit.
Qed.

Lemma model_trained_once_witness :
  train_or_load_model (fun _ => Ret revealing_model) [] (initial_world None)
  = (Ret revealing_model,
     set_model_file (Some revealing_model) (initial_world None), [])
  /\ train_or_load_model (fun _ => Raise IndexError) []
       (set_model_file (Some revealing_model) (initial_world None))
     = (Ret revealing_model,
        set_model_file (Some revealing_model) (initial_world None), []).
Proof.
  destruct (model_trained_once (fun _ => Ret revealing_model) []
              (initial_world None) eq_refl) as [Hfit _].
  destruct (Hfit revealing_model eq_refl) as [H1 H2].
  exact (conj H1 (H2 (fun _ => Raise IndexError) [])).
Defined.

Lemma fold_Qmaxb_spec (l : list Q) :
  forall init,
    In (fold_left Qmaxb l init) (init :: l)
    /\ forall q, In q (init :: l) -> q <= fold_left Qmaxb l init.
Proof.
  induction l as [| x l IH]; intros init.
  - simpl. split; [now left |]. intros q [<- | []]. apply Qle_refl.
  - cbn [fold_left]. destruct (IH (Qmaxb init x)) as [Hin Hmax].
    assert (Hi : init <= Qmaxb init x /\ x <= Qmaxb init x
                 /\ (Qmaxb init x = init \/ Qmaxb init x = x)).
    { unfold Qmaxb. destruct (Qle_bool init x) eqn:E.
      - apply Qle_bool_iff in E. repeat split; [exact E | apply Qle_refl | now right].
      - apply Qle_bool_false_iff in E.
        repeat split; [apply Qle_refl | lra | now left]. }
    destruct Hi as (Hi1 & Hi2 & Hi3). split.
    + destruct Hin as [Hin | Hin].
      * destruct Hi3 as [Hi3 | Hi3]; rewrite <- Hin, Hi3; simpl; tauto.
      * simpl. tauto.
    + intros q [<- | [<- | Hq]].
      * apply Qle_trans with (Qmaxb init x); [exact Hi1 |]. apply Hmax. now left.
      * apply Qle_trans with (Qmaxb init x); [exact Hi2 |]. apply Hmax. now left.
      * apply Hmax. now right.
Qed.

(** X14.  [predict] asks the model about the last row of the frame only:
    the class is the model's class for that row, and the confidence is
    one of the model's class probabilities for it and is at least as
    large as each of them.  On a frame without rows it raises
    [IndexError]. *)
Theorem predict_takes_last_row (model : Model) :
  predict [] model = Raise IndexError
  /\ forall (before : list LabelledRow) (r : LabelledRow),
      exists confidence,
        predict (before ++ [r]) model
        = Ret (model_predict model (features (row r)), confidence)
        /\ In confidence
             (fst (model_predict_proba model (features (row r)))
              :: snd (model_predict_proba model (features (row r))))
        /\ forall q,
            In q (fst (model_predict_proba model (features (row r)))
                  :: snd (model_predict_proba model (features (row r)))) ->
            q <= confidence.
Proof.
  split; [reflexivity |].
  intros before r. unfold predict, iloc_last. rewrite rev_unit.
  eexists. split; [reflexivity |]. apply fold_Qmaxb_spec.
Qed.

(** ** Cooldown across days *)

Lemma timedelta_seconds_whole_days (a b : datetime) (k : Z) :
  timedelta_seconds (a + k * 86400000000) b = timedelta_seconds a b.
Proof.
  unfold timedelta_seconds.
  replace (a + k * 86400000000 - b)%Z with (a - b + k * 86400000000)%Z by lia.
  rewrite Z.mod_add by lia. reflexivity.
Qed.

(** X15.  The cooldown only sees the time of day of the elapsed time:
    moving the current time by any whole number of days changes nothing
    of what [can_trade] does.  So when the current time is a whole number
    of days plus less than 61 seconds after the stored time stamp,
    [can_trade] still refuses and keeps the old time stamp. *)
Theorem can_trade_ignores_whole_days (w : World) (t_check t_stamp last : datetime)
  (Hlast : last_trade_time w = Some last)
  (Hsoon : (0 <= t_check - last < 61000000)%Z) :
  forall days : Z,
    can_trade (t_check + days * 86400000000) t_stamp w
    = can_trade t_check t_stamp w
    /\ can_trade (t_check + days * 86400000000) t_stamp w = (Ret false, w, []).
Proof.
  intros days.
  assert (Hsame : can_trade (t_check + days * 86400000000) t_stamp w
                  = can_trade t_check t_stamp w).
  { unfold can_trade. unfold_monad. rewrite Hlast.
    now rewrite timedelta_seconds_whole_days. }
  split; [exact Hsame |]. rewrite Hsame.
  assert (Hno : (60 <? timedelta_seconds t_check last)%Z = false).
  { apply not_true_is_false. intros H. apply seconds_gt_60_iff in H; lia. }
  unfold can_trade. unfold_monad. now rewrite Hlast, Hno.
Qed.

Lemma can_trade_ignores_whole_days_witness :
  can_trade (5000000 + 1 * 86400000000) 0
    (set_last_trade_time (Some 0%Z) (initial_world None))
  = (Ret false, set_last_trade_time (Some 0%Z) (initial_world None), []).
Proof.
  refine (proj2
    (can_trade_ignores_whole_days
       (set_last_trade_time (Some 0%Z) (initial_world None))
       5000000 0 0 eq_refl _ 1)).
  lia.
Defined.

(** ** Exchange client *)

(** X16.  [get_price] answers [None] when no ticker has the symbol, and
    otherwise the price of the first ticker that has it: tickers before
    it with other symbols, and whatever follows it (a second entry of the
    symbol, an entry whose price is no number), do not matter. *)
Theorem get_price_first_match (float_of : string -> result Q)
  (before : list BinanceUSClient.Ticker) (sym : string)
  (Hbefore : forall x, In x before -> BinanceUSClient.symbol x <> sym) :
  BinanceUSClient.get_price float_of before sym = Ret None
  /\ forall t after,
      BinanceUSClient.symbol t = sym ->
      BinanceUSClient.get_price float_of (before ++ t :: after) sym
      = match float_of (BinanceUSClient.price t) with
        | Ret p => Ret (Some p)
        | Raise e => Raise e
        end.
Proof.
  induction before as [| x before IH].
  - split; [reflexivity |]. intros t after Hsym. simpl.
    apply String.eqb_eq in Hsym. now rewrite Hsym.
  - assert (Hx : String.eqb (BinanceUSClient.symbol x) sym = false).
    { apply String.eqb_neq. apply Hbefore. now left. }
    destruct IH as [IHnone IHfirst].
    { intros y Hy. apply Hbefore. now right. }
    split.
    + simpl. now rewrite Hx.
    + intros t after Hsym. simpl. rewrite Hx. now apply IHfirst.
Qed.

Lemma get_price_first_match_witness :
  BinanceUSClient.get_price sample_float_of
    ([ BinanceUSClient.mkTicker "ETHUSDT" "2" ]
     ++ BinanceUSClient.mkTicker "BTCUSDT" "100.5"
        :: [ BinanceUSClient.mkTicker "BTCUSDT" "n/a" ])
    "BTCUSDT"
  = Ret (Some 100.5).
Proof.
  refine (proj2
    (get_price_first_match sample_float_of
       [ BinanceUSClient.mkTicker "ETHUSDT" "2" ] "BTCUSDT" _)
    (BinanceUSClient.mkTicker "BTCUSDT" "100.5")
    [ BinanceUSClient.mkTicker "BTCUSDT" "n/a" ] eq_refl).
  intros x [<- | []]. discriminate.
Defined.

Lemma sum_quantities_nonneg (float_of : string -> result Q)
  (levels : list (string * string)) :
  Forall (fun level => exists q, float_of (snd level) = Ret q /\ 0 <= q) levels ->
  forall acc,
    exists total,
      BinanceUSClient.sum_quantities float_of acc levels = Ret total
      /\ acc <= total.
Proof.
  induction 1 as [| level levels (q & Hq & Hq0) _ IH]; intros acc.
  - exists acc. split; [reflexivity | apply Qle_refl].
  - simpl. rewrite Hq. destruct (IH (acc + q)) as (total & Ht & Hle).
    exists total. split; [exact Ht | lra].
Qed.

(** X17.  When every quantity of the order book is a non-negative number,
    [get_order_book_stats] returns two non-negative volumes, and the
    imbalance that [main] and [calculate_indicators] compute from them is
    a number between -1 and 1 unless the two volumes sum to zero, in
    which case the division raises [ZeroDivisionError]; an empty book is
    such a case. *)
Theorem order_book_imbalance_bounded (float_of : string -> result Q)
  (bids asks : list (string * string))
  (Hbids : Forall (fun level => exists q, float_of (snd level) = Ret q /\ 0 <= q)
             bids)
  (Hasks : Forall (fun level => exists q, float_of (snd level) = Ret q /\ 0 <= q)
             asks) :
  exists bid_volume ask_volume,
    BinanceUSClient.get_order_book_stats float_of bids asks
    = Ret (bid_volume, ask_volume)
    /\ 0 <= bid_volume /\ 0 <= ask_volume
    /\ (bid_volume + ask_volume == 0 ->
        py_div (bid_volume - ask_volume) (bid_volume + ask_volume)
        = Raise ZeroDivisionError)
    /\ (~ bid_volume + ask_volume == 0 ->
        py_div (bid_volume - ask_volume) (bid_volume + ask_volume)
        = Ret ((bid_volume - ask_volume) / (bid_volume + ask_volume))
        /\ -1 <= (bid_volume - ask_volume) / (bid_volume + ask_volume) <= 1)
    /\ (bids = [] -> asks = [] -> bid_volume + ask_volume == 0).
Proof.
  destruct (sum_quantities_nonneg float_of bids Hbids 0) as (b & Hb & Hb0).
  destruct (sum_quantities_nonneg float_of asks Hasks 0) as (a & Ha & Ha0).
  exists b, a. unfold BinanceUSClient.get_order_book_stats. rewrite Hb, Ha.
  split; [reflexivity |]. split; [exact Hb0 |]. split; [exact Ha0 |].
  split; [| split].
  - intros Hz. unfold py_div. apply Qeq_bool_iff in Hz. now rewrite Hz.
  - intros Hnz. split; [| now apply obi_bounds].
    unfold py_div. destruct (Qeq_bool (b + a) 0) eqn:E; [| reflexivity].
    apply Qeq_bool_iff in E. contradiction.
  - intros -> ->. simpl in Hb, Ha. injection Hb as <-. injection Ha as <-.
    reflexivity.
Qed.

Lemma order_book_imbalance_bounded_witness :
  exists bid_volume ask_volume,
    BinanceUSClient.get_order_book_stats sample_float_of
      [ ("100.5", "2") ]%string [ ("100.5", "2"); ("2", "100.5") ]%string
    = Ret (bid_volume, ask_volume)
    /\ 0 <= bid_volume /\ 0 <= ask_volume.
Proof.
  destruct (order_book_imbalance_bounded sample_float_of
              [ ("100.5", "2") ]%string
              [ ("100.5", "2"); ("2", "100.5") ]%string)
    as (b & a & H & Hb & Ha & _).
  - repeat constructor. exists 2. split; [reflexivity | discriminate].
  - repeat constructor.
    + exists 2. split; [reflexivity | discriminate].
    + exists 100.5. split; [reflexivity | discriminate].
  - exists b, a. exact (conj H (conj Hb Ha)).
Defined.

(** ** What a cycle writes *)

Lemma observe_globals (env : Env) (w : World) :
  last_trade_time (final (observe env w)) = last_trade_time w
  /\ forall m, model_file w = Some m -> model_file (final (observe env w)) = Some m.
Proof.
  destruct w as [pm ltt mf].
  unfold observe, train_or_load_model. unfold_monad.
  cbv beta iota zeta delta [set_model_file last_trade_time model_file position].
  repeat case_split; (split; [reflexivity |]); intros m0 Hm;
    first [exact Hm | discriminate Hm].
Qed.

Lemma decide_globals (env : Env) (s : Snapshot) (w : World) :
  last_trade_time (final (decide env s w)) = last_trade_time w
  /\ model_file (final (decide env s w)) = model_file w.
Proof.
  destruct w as [pm ltt mf]. unfold_main.
  repeat case_split; split; reflexivity.
Qed.

Lemma main_globals (env : Env) (w : World) :
  (forall m, model_file w = Some m -> model_file (final (main env w)) = Some m)
  /\ (outcome (can_trade (now_check env) (now_stamp env) w) = Ret true ->
      last_trade_time (final (main env w)) = Some (now_stamp env))
  /\ (outcome (can_trade (now_check env) (now_stamp env) w) = Ret false ->
      last_trade_time (final (main env w)) = last_trade_time w).
Proof.
  assert (Hgate : exists b w0,
             can_trade (now_check env) (now_stamp env) w = (Ret b, w0, [])
             /\ model_file w0 = model_file w
             /\ last_trade_time w0
                = if b then Some (now_stamp env) else last_trade_time w).
  { unfold can_trade. unfold_monad.
    destruct (match last_trade_time w with
              | Some last => (60 <? timedelta_seconds (now_check env) last)%Z
              | None => true
              end); eexists; eexists; repeat split. }
  destruct Hgate as (b & w0 & Hg & Hmf & Hltt).
  rewrite main_split. unfold bind, log, emit, final, outcome.
  rewrite !Hg. cbn [fst snd].
  destruct b; cbn [negb]; cbv beta iota in Hltt.
  - destruct (observe_globals env w0) as [Ho1 Ho2]. unfold final in Ho1, Ho2.
    destruct (observe env w0) as [[[s | e] w1] t1]; cbn [fst snd] in *.
    + destruct (decide_globals env s w1) as [Hd1 Hd2]. unfold final in Hd1, Hd2.
      destruct (decide env s w1) as [[r w2] t2]. cbn [fst snd] in *.
      split; [| split].
      * intros m Hm. rewrite Hd2. apply Ho2. congruence.
      * intros _. congruence.
      * discriminate.
    + split; [| split].
      * intros m Hm. apply Ho2. congruence.
      * intros _. congruence.
      * discriminate.
  - cbn [fst snd]. split; [| split].
    + intros m Hm. congruence.
    + discriminate.
    + intros _. exact Hltt.
Qed.

(** X18.  The stored time stamp is that of the last cycle that passed the
    cooldown gate, not of the last trade: every cycle that passes the
    gate ends with the time stamp set to its clock reading, whether it
    then trades, holds or raises, and a skipped cycle leaves the time
    stamp as it was. *)
Theorem every_attempt_is_stamped (env : Env) (w : World) :
  (outcome (can_trade (now_check env) (now_stamp env) w) = Ret true ->
   last_trade_time (final (main env w)) = Some (now_stamp env))
  /\ (outcome (can_trade (now_check env) (now_stamp env) w) = Ret false ->
      last_trade_time (final (main env w)) = last_trade_time w)
  /\ (last_trade_time w = None ->
      last_trade_time (final (main env w)) = Some (now_stamp env)).
Proof.
  destruct (main_globals env w) as (_ & Hpass & Hskip).
  split; [exact Hpass |]. split; [exact Hskip |].
  intros Hnone. apply Hpass. unfold can_trade. unfold_monad. now rewrite Hnone.
Qed.

(** X19.  An existing model file is never replaced: once a model is
    stored, every cycle and any number of iterations of the loop leave
    it in place, whatever the fitting procedure would answer. *)
Theorem model_file_never_replaced (envs : list Env) (w : World) (m : Model)
  (Hfile : model_file w = Some m) :
  model_file (final (run_forever envs w)) = Some m
  /\ forall env, model_file (final (main env w)) = Some m.
Proof.
  split; [| intros env; now apply main_globals].
  revert w Hfile. induction envs as [| env rest IH]; intros w Hfile; [exact Hfile |].
  pose proof (proj1 (main_globals env w) m Hfile) as Hm.
  simpl run_forever. unfold bind, log, emit, final in *.
  destruct (main env w) as [[[[] | e] w1] t1]; cbn [fst snd] in *; [| exact Hm].
  specialize (IH w1 Hm). destruct (run_forever rest w1) as [[r2 w2] t2].
  exact IH.
Qed.

Lemma model_file_never_replaced_witness :
  model_file
    (final (run_forever
              [ sample_env (Some 100) 1000 (30, 10) accepting;
                sample_env None 1000 (0, 0) rejecting ]
              (initial_world (Some revealing_model))))
  = Some revealing_model.
Proof.
  apply (model_file_never_replaced
           [ sample_env (Some 100) 1000 (30, 10) accepting;
             sample_env None 1000 (0, 0) rejecting ]
           (initial_world (Some revealing_model)) revealing_model).
  reflexivity.
Defined.
